(** * The tool-calling orchestration loop of [agent.py]

    A shallow embedding of [LiteLLMAgent] (src/agent.py): the values the
    agent exchanges with the model backend are JSON documents, the methods
    are programs of a state-and-exception monad, and the two collaborators
    (tool provider, model backend) are oracles acting on an abstract world. *)

From Stdlib Require Import ZArith List String Ascii Bool Lia DecimalString.
Import ListNotations.
Local Open Scope string_scope.
Local Open Scope Z_scope.
Set Warnings "-register-all".

(** ** Python values and the primitives the agent applies to them *)
Module Py.

(** What [response.json()] and [json.loads] produce.  Numbers are integers:
    the agent only tests them for truth and passes them on. *)
Inductive json : Type :=
| JNull
| JBool (b : bool)
| JNum (n : Z)
| JStr (s : string)
| JArr (items : list json)
| JObj (fields : list (string * json)).

(** A Python [dict] with string keys, in insertion order. *)
Definition dict := list (string * json).

(** A raised exception: its class name and [str(e)]. *)
Record exn : Type := mk_exn { exn_class : string; exn_str : string }.

(** The result of evaluating an expression or of a call. *)
Inductive res (A : Type) : Type :=
| Ok (a : A)
| Raise (e : exn).
Arguments Ok {A} a.
Arguments Raise {A} e.

(** [bool(v)] *)
Definition truthy (v : json) : bool :=
  match v with
  | JNull => false
  | JBool b => b
  | JNum n => negb (n =? 0)
  | JStr s => negb (String.eqb s "")
  | JArr items => match items with [] => false | _ :: _ => true end
  | JObj fields => match fields with [] => false | _ :: _ => true end
  end.

(** [type(v).__name__] *)
Definition type_name (v : json) : string :=
  match v with
  | JNull => "NoneType"
  | JBool _ => "bool"
  | JNum _ => "int"
  | JStr _ => "str"
  | JArr _ => "list"
  | JObj _ => "dict"
  end.

Fixpoint lookup (key : string) (d : dict) : option json :=
  match d with
  | [] => None
  | (k, v) :: rest => if String.eqb k key then Some v else lookup key rest
  end.

(** [d.get(key, default)] on a dict *)
Definition dict_get (d : dict) (key : string) (default : json) : json :=
  match lookup key d with
  | Some v => v
  | None => default
  end.

Definition AttributeError (v : json) (attr : string) : exn :=
  mk_exn "AttributeError"
         ("'" ++ type_name v ++ "' object has no attribute '" ++ attr ++ "'").

(** [v.get(key, default)] on any value: only a dict has the method. *)
Definition get (v : json) (key : string) (default : json) : res json :=
  match v with
  | JObj d => Ok (dict_get d key default)
  | _ => Raise (AttributeError v "get")
  end.

(** [v[0]].  Of a string it is the first character; the agent goes on to
    call [.get] on it, which a [str] does not have. *)
Definition index0 (v : json) : res json :=
  match v with
  | JArr (x :: _) => Ok x
  | JArr [] => Raise (mk_exn "IndexError" "list index out of range")
  | JStr (String c _) => Ok (JStr (String c EmptyString))
  | JStr EmptyString => Raise (mk_exn "IndexError" "string index out of range")
  | JObj _ => Raise (mk_exn "KeyError" "0")
  | _ => Raise (mk_exn "TypeError"
                       ("'" ++ type_name v ++ "' object is not subscriptable"))
  end.

(** [str(n)] for an [int] *)
Definition str_of_int (n : Z) : string := NilZero.string_of_int (Z.to_int n).

End Py.
Import Py.

(** ** The data of [agent.py] *)

(** [@dataclass class MCPTool] *)
Record MCPTool : Type := mkMCPTool {
  name : string;
  description : string;
  input_schema : dict
}.

(** Modelled from the spec: the [inputSchema] of a tool as the provider
    returns it (the [mcp] package is not part of the repository), which
    "may be a structured mapping, an attribute-bearing object, or absent". *)
Inductive ProviderSchema : Type :=
| NoSchema
| SchemaMapping (d : dict)
| SchemaObject (attrs : dict).

(** Modelled from the spec: an entry of [list_tools()],
    [{name, description, input_schema}]. *)
Record ProviderTool : Type := mkProviderTool {
  tool_name : string;
  tool_description : string;
  inputSchema : ProviderSchema
}.

(** Modelled from the spec: a content item of a [call_tool] result "exposes
    an optional text field"; [item_str] is [str(item)]. *)
Record ContentItem : Type := mkContentItem {
  text : option string;
  item_str : string
}.

(** What [httpx] hands back: the status, and [response.json()]. *)
Record HttpResponse : Type := mkHttpResponse {
  status_code : Z;
  response_json : res json
}.

(** The fields [__init__] sets from its arguments or the environment. *)
Record Config : Type := mkConfig {
  mcp_server_url : string;
  litellm_base_url : string;
  litellm_api_key : string
}.

(** Calls that cross the boundary of the agent, recorded when they return. *)
Inductive Event : Type :=
| EvDiscover (outcome : res (list MCPTool))
| EvModel (messages : list json) (functions : option (list json))
          (reply : res json)
| EvTool (tool : json) (arguments : json) (outcome : res json).

Section Agent.

(** The state of the tool provider and the model backend. *)
Variable W : Type.

(** The collaborators, and the two functions of Python's [json] module.
    [json_loads s] is [json.loads] of a [str]: the value parsed, or the
    exception raised, which is [json.JSONDecodeError] for a text that is
    not JSON and can be another one ([RecursionError] for brackets nested
    too deep, [ValueError] for a number with too many digits). *)
Record Collaborators : Type := mkCollaborators {
  json_loads : string -> res json;
  json_dumps : json -> string;
  (* streamablehttp_client(url), ClientSession, session.initialize() *)
  open_session : string -> W -> res unit * W;
  (* session.list_tools().tools *)
  list_tools : W -> res (list ProviderTool) * W;
  (* session.call_tool(name, arguments).content *)
  call_tool : json -> json -> W -> res (list ContentItem) * W;
  (* client.post(url, headers=headers, json=data, timeout=60.0) *)
  http_post : string -> list (string * string) -> json -> W
              -> res HttpResponse * W
}.

(** The world, the record of boundary calls, [self.mcp_tools], and the two
    locals of [process_request] that outlive a loop iteration.
    [tool_call_count = None] is the local before its first assignment. *)
Record State : Type := mkState {
  world : W;
  trace : list Event;
  self_mcp_tools : list MCPTool;
  messages : list json;
  tool_call_count : option Z
}.

Definition with_world (st : State) (w : W) : State :=
  mkState w (trace st) (self_mcp_tools st) (messages st) (tool_call_count st).

Definition with_self_mcp_tools (st : State) (tools : list MCPTool) : State :=
  mkState (world st) (trace st) tools (messages st) (tool_call_count st).

Definition with_messages (st : State) (ms : list json) : State :=
  mkState (world st) (trace st) (self_mcp_tools st) ms (tool_call_count st).

Definition with_tool_call_count (st : State) (c : option Z) : State :=
  mkState (world st) (trace st) (self_mcp_tools st) (messages st) c.

(** Append an event to the record of boundary calls. *)
Definition record (ev : Event) (st : State) : State :=
  mkState (world st) (trace st ++ [ev]) (self_mcp_tools st) (messages st)
          (tool_call_count st).

(** A statement run from a state returns or raises, and leaves a state;
    [None] is a loop that was not given passes enough to finish. *)
Definition M (A : Type) : Type := State -> option (res A) * State.

Definition ret {A} (a : A) : M A := fun st => (Some (Ok a), st).

Definition bind {A B} (m : M A) (k : A -> M B) : M B :=
  fun st =>
    match m st with
    | (Some (Ok a), st') => k a st'
    | (Some (Raise e), st') => (Some (Raise e), st')
    | (None, st') => (None, st')
    end.

Definition raise {A} (e : exn) : M A := fun st => (Some (Raise e), st).

(** [try: body  except Exception as e: handler e] *)
Definition try_except {A} (body : M A) (handler : exn -> M A) : M A :=
  fun st =>
    match body st with
    | (Some (Raise e), st') => handler e st'
    | other => other
    end.

(** Evaluate a pure expression that may raise. *)
Definition eval {A} (r : res A) : M A := fun st => (Some r, st).

(** Run a collaborator on the world. *)
Definition external {A} (f : W -> res A * W) : M A :=
  fun st => let (r, w) := f (world st) in (Some r, with_world st w).

(** Run [m], record how it ended, and end the same way. *)
Definition recording {A} (m : M A) (ev : res A -> Event) : M A :=
  fun st =>
    match m st with
    | (Some r, st') => (Some r, record (ev r) st')
    | (None, st') => (None, st')
    end.

Definition set_self_mcp_tools (tools : list MCPTool) : M unit :=
  fun st => (Some (Ok tt), with_self_mcp_tools st tools).

Definition get_messages : M (list json) :=
  fun st => (Some (Ok (messages st)), st).

Definition set_messages (ms : list json) : M unit :=
  fun st => (Some (Ok tt), with_messages st ms).

(** [messages.append(m)] *)
Definition messages_append (m : json) : M unit :=
  fun st => (Some (Ok tt), with_messages st (messages st ++ [m])).

Definition set_tool_call_count (c : option Z) : M unit :=
  fun st => (Some (Ok tt), with_tool_call_count st c).

Definition get_tool_call_count : M Z :=
  fun st =>
    match tool_call_count st with
    | Some c => (Some (Ok c), st)
    | None =>
        (Some (Raise (mk_exn "UnboundLocalError"
           "cannot access local variable 'tool_call_count' where it is not associated with a value")),
         st)
    end.

End Agent.

Arguments json_loads {W} _ _.
Arguments json_dumps {W} _ _.
Arguments open_session {W} _ _ _.
Arguments list_tools {W} _ _.
Arguments call_tool {W} _ _ _ _.
Arguments http_post {W} _ _ _ _ _.
Arguments mkState {W} _ _ _ _ _.
Arguments world {W} _.
Arguments trace {W} _.
Arguments self_mcp_tools {W} _.
Arguments messages {W} _.
Arguments tool_call_count {W} _.
Arguments with_world {W} st w.
Arguments with_self_mcp_tools {W} st tools.
Arguments with_messages {W} st ms.
Arguments with_tool_call_count {W} st c.
Arguments ret {W A} _ _.
Arguments bind {W A B} _ _ _.
Arguments raise {W A} _ _.
Arguments try_except {W A} _ _ _.
Arguments eval {W A} _ _.
Arguments external {W A} _ _.
Arguments record {W} ev st.
Arguments recording {W A} _ _ _.
Arguments set_self_mcp_tools {W} _ _.
Arguments get_messages {W} _.
Arguments set_messages {W} _ _.
Arguments messages_append {W} _ _.
Arguments set_tool_call_count {W} _ _.
Arguments get_tool_call_count {W} _.

Declare Scope agent_scope.
Delimit Scope agent_scope with agent.
Notation "x <- m ;; k" := (bind m (fun x => k))
  (at level 61, m at next level, right associativity) : agent_scope.
Notation "m ;;; k" := (bind m (fun _ => k))
  (at level 61, right associativity) : agent_scope.
Local Open Scope agent_scope.

(** ** The methods of [LiteLLMAgent] *)
Section Methods.

Variable W : Type.
Variable env : Collaborators W.
Variable self : Config.

(** The body of the [for tool in tools_response.tools] loop: the schema
    becomes a plain dict, [{}] when there is none or it is empty. *)
Definition convert_provider_tool (tool : ProviderTool) : MCPTool :=
  let input_schema :=
    match inputSchema tool with
    | NoSchema => []
    | SchemaMapping d => d
    | SchemaObject attrs => attrs
    end in
  mkMCPTool (tool_name tool) (tool_description tool) input_schema.

(** [async def _fetch_mcp_tools(self)]: the handler logs and re-raises. *)
Definition _fetch_mcp_tools : M W (list MCPTool) :=
  recording
    (try_except
       (external (open_session env (mcp_server_url self)) ;;;
        tools <- external (list_tools env) ;;
        ret (map convert_provider_tool tools))
       (fun e => raise e))
    EvDiscover.

(** [result.content[0].text if result.content[0].text
     else str(result.content[0])] *)
Definition first_item_text (item : ContentItem) : string :=
  match text item with
  | Some t => if negb (String.eqb t "") then t else item_str item
  | None => item_str item
  end.

Definition no_content_message : string :=
  "Tool executed successfully but returned no content".

(** [async def _execute_mcp_tool(self, tool_name, arguments)] *)
Definition _execute_mcp_tool (tool_name arguments : json) : M W json :=
  recording
    (try_except
       (external (open_session env (mcp_server_url self)) ;;;
        content <- external (call_tool env tool_name arguments) ;;
        match content with
        | item :: _ => ret (JObj [("result", JStr (first_item_text item))])
        | [] => ret (JObj [("result", JStr no_content_message)])
        end)
       (fun e =>
          ret (JObj [("error",
                      JStr ("Tool execution failed: " ++ exn_str e))])))
    (EvTool tool_name arguments).

Definition default_parameters : dict :=
  [("type", JStr "object"); ("properties", JObj []); ("required", JArr [])].

(** The dict built for one tool in [_convert_mcp_tools_to_litellm]. *)
Definition function_def (tool : MCPTool) : json :=
  JObj [("name", JStr (name tool));
        ("description", JStr (description tool));
        ("parameters",
         JObj (if truthy (JObj (input_schema tool)) then input_schema tool
               else default_parameters))].

(** [def _convert_mcp_tools_to_litellm(self, mcp_tools)]: the loop appends
    one [function_def] per tool to an initially empty list. *)
Definition _convert_mcp_tools_to_litellm (mcp_tools : list MCPTool)
  : list json :=
  fold_left (fun litellm_functions tool =>
               (litellm_functions ++ [function_def tool])%list)
            mcp_tools [].

(** The [data] dict of [_call_litellm]. *)
Definition request_data (messages : list json) (model : string)
           (functions : option (list json)) : json :=
  JObj ([("model", JStr model); ("messages", JArr messages)]
        ++ match functions with
           | Some fs =>
               if truthy (JArr fs)
               then [("functions", JArr fs); ("function_call", JStr "auto")]
               else []
           | None => []
           end)%list.

(** [async def _call_litellm(self, messages, model, functions)] *)
Definition _call_litellm (messages : list json) (model : string)
           (functions : option (list json)) : M W json :=
  recording
    (try_except
       (let url := litellm_base_url self ++ "/v1/chat/completions" in
        let headers :=
          [("Authorization", "Bearer " ++ litellm_api_key self);
           ("Content-Type", "application/json")] in
        let data := request_data messages model functions in
        response <- external (http_post env url headers data) ;;
        if negb (status_code response =? 200)
        then raise (mk_exn "Exception"
                      ("LiteLLM request failed: "
                         ++ str_of_int (status_code response)))
        else eval (response_json response))
       (fun e => raise e))
    (EvModel messages functions).

(** [except json.JSONDecodeError]: the clause takes the exceptions of that
    class. *)
Definition is_JSONDecodeError (e : exn) : bool :=
  String.eqb (exn_class e) "JSONDecodeError".

(** [json.loads(function_args_str)] under [except json.JSONDecodeError]:
    a string that [json.loads] rejects with that exception gives [{}]; any
    other exception passes the handler, and so does the [TypeError] that
    [json.loads] raises for a value that is not a string. *)
Definition loads_or_empty (function_args_str : json) : res json :=
  match function_args_str with
  | JStr s =>
      match json_loads env s with
      | Ok function_args => Ok function_args
      | Raise e => if is_JSONDecodeError e then Ok (JObj []) else Raise e
      end
  | other =>
      Raise (mk_exn "TypeError"
               ("the JSON object must be str, bytes or bytearray, not "
                  ++ type_name other))
  end.

(** The three dicts [process_request] returns. *)
Definition success_result (response : json) (tool_calls_made : Z)
           (total_tokens : json) : json :=
  JObj [("success", JBool true);
        ("response", response);
        ("tool_calls_made", JNum tool_calls_made);
        ("total_tokens", total_tokens)].

Definition max_calls_error (max_tool_calls : Z) : string :=
  "Maximum tool calls (" ++ str_of_int max_tool_calls ++ ") reached".

Definition exhausted_result (max_tool_calls tool_calls_made : Z)
           (partial_response : json) : json :=
  JObj [("success", JBool false);
        ("error", JStr (max_calls_error max_tool_calls));
        ("tool_calls_made", JNum tool_calls_made);
        ("partial_response", partial_response)].

Definition failed_result (error : string) (tool_calls_made : Z) : json :=
  JObj [("success", JBool false);
        ("error", JStr error);
        ("tool_calls_made", JNum tool_calls_made)].

Definition user_message (request : string) : json :=
  JObj [("role", JStr "user"); ("content", JStr request)].

Definition function_message (function_name : json) (tool_result : json)
  : json :=
  JObj [("role", JStr "function");
        ("name", function_name);
        ("content", JStr (json_dumps env tool_result))].

(** [llm_response.get("choices", [{}])[0].get("message", {})] *)
Definition assistant_message (llm_response : json) : res json :=
  match get llm_response "choices" (JArr [JObj []]) with
  | Ok choices =>
      match index0 choices with
      | Ok choice => get choice "message" (JObj [])
      | Raise e => Raise e
      end
  | Raise e => Raise e
  end.

(** [llm_response.get("usage", {}).get("total_tokens", 0)] *)
Definition total_tokens (llm_response : json) : res json :=
  match get llm_response "usage" (JObj []) with
  | Ok usage => get usage "total_tokens" (JNum 0)
  | Raise e => Raise e
  end.

(** The dict of the [return] under [if not function_call]. *)
Definition final_response (message llm_response : json) : M W json :=
  response <- eval (get message "content" (JStr "")) ;;
  tool_calls_made <- get_tool_call_count ;;
  tokens <- eval (total_tokens llm_response) ;;
  ret (success_result response tool_calls_made tokens).

(** The statements of the loop body after the [if]: count the call, decode
    the arguments, run the tool, append its result. *)
Definition execute_function_call (function_call : json) : M W unit :=
  count <- get_tool_call_count ;;
  set_tool_call_count (Some (count + 1)) ;;;
  function_name <- eval (get function_call "name" JNull) ;;
  function_args_str <- eval (get function_call "arguments" (JStr "{}")) ;;
  function_args <- eval (loads_or_empty function_args_str) ;;
  tool_result <- _execute_mcp_tool function_name function_args ;;
  messages_append (function_message function_name tool_result).

(** [functions=litellm_functions if litellm_functions else None] *)
Definition functions_argument (litellm_functions : list json)
  : option (list json) :=
  if truthy (JArr litellm_functions) then Some litellm_functions else None.

(** One pass through the body of [while tool_call_count < max_tool_calls]:
    [Some r] when the body executes [return r], [None] when it falls
    through to the next test of the condition. *)
Definition loop_body (model : string) (litellm_functions : list json)
  : M W (option json) :=
  messages <- get_messages ;;
  llm_response <- _call_litellm messages model
                    (functions_argument litellm_functions) ;;
  message <- eval (assistant_message llm_response) ;;
  messages_append message ;;;
  function_call <- eval (get message "function_call" JNull) ;;
  if negb (truthy function_call) then
    result <- final_response message llm_response ;;
    ret (Some result)
  else
    execute_function_call function_call ;;;
    ret None.

(** [messages[-1].get("content", "") if messages else ""] *)
Definition partial_response (messages : list json) : res json :=
  match rev messages with
  | [] => Ok (JStr "")
  | latest :: _ => get latest "content" (JStr "")
  end.

(** The statements after the loop. *)
Definition max_calls_reached (max_tool_calls : Z) : M W json :=
  tool_calls_made <- get_tool_call_count ;;
  messages <- get_messages ;;
  partial <- eval (partial_response messages) ;;
  ret (exhausted_result max_tool_calls tool_calls_made partial).

(** [while tool_call_count < max_tool_calls: ...] and the statements after
    it.  [fuel] is the number of passes the loop may take; a pass that
    continues raises the counter, so [max_tool_calls] passes are enough
    ([process_request_spec]). *)
Fixpoint while_loop (fuel : nat) (model : string) (max_tool_calls : Z)
         (litellm_functions : list json) : M W json :=
  count <- get_tool_call_count ;;
  if count <? max_tool_calls then
    match fuel with
    | O => fun st => (None, st)
    | S fuel' =>
        returned <- loop_body model litellm_functions ;;
        match returned with
        | Some result => ret result
        | None => while_loop fuel' model max_tool_calls litellm_functions
        end
    end
  else max_calls_reached max_tool_calls.

(** The [except Exception as e] clause of [process_request]:
    [tool_call_count if 'tool_call_count' in locals() else 0]. *)
Definition on_exception (e : exn) : M W json :=
  fun st =>
    (Some (Ok (failed_result (exn_str e)
                 (match tool_call_count st with
                  | Some count => count
                  | None => 0
                  end))), st).

(** A call starts with fresh locals. *)
Definition enter_process_request : M W unit :=
  set_messages [] ;;; set_tool_call_count None.

(** [async def process_request(self, request, model, max_tool_calls)] *)
Definition process_request (request : string) (model : string)
           (max_tool_calls : Z) : M W json :=
  enter_process_request ;;;
  try_except
    (mcp_tools <- _fetch_mcp_tools ;;
     set_self_mcp_tools mcp_tools ;;;
     let litellm_functions := _convert_mcp_tools_to_litellm mcp_tools in
     set_messages [user_message request] ;;;
     set_tool_call_count (Some 0) ;;;
     while_loop (Z.to_nat max_tool_calls) model max_tool_calls
                litellm_functions)
    on_exception.

End Methods.

Arguments _fetch_mcp_tools {W} env self _.
Arguments _execute_mcp_tool {W} env self tool_name arguments _.
Arguments _call_litellm {W} env self messages model functions _.
Arguments loads_or_empty {W} env function_args_str.
Arguments function_message {W} env function_name tool_result.
Arguments final_response {W} message llm_response _.
Arguments execute_function_call {W} env self function_call _.
Arguments loop_body {W} env self model litellm_functions _.
Arguments max_calls_reached {W} max_tool_calls _.
Arguments while_loop {W} env self fuel model max_tool_calls litellm_functions _.
Arguments on_exception {W} e _.
Arguments enter_process_request {W} _.
Arguments process_request {W} env self request model max_tool_calls _.

(** ** A scripted world for running the agent on concrete conversations *)
Module Scripted.

(** What the collaborators will answer, in order. *)
Record Script : Type := mkScript {
  discovery : res (list ProviderTool);
  replies : list (res HttpResponse);
  tool_outcomes : list (res (list ContentItem))
}.

Definition quote : string := String (ascii_of_nat 34) EmptyString.

Definition connection_refused : exn :=
  mk_exn "ConnectError" "All connection attempts failed".

Definition location_SF : string :=
  "{" ++ quote ++ "location" ++ quote ++ ": " ++ quote ++ "SF" ++ quote ++ "}".

(** Two thousand opening brackets. *)
Definition deep_brackets : string := String.concat "" (repeat "[" 2000).

Definition recursion_error : exn :=
  mk_exn "RecursionError"
         "maximum recursion depth exceeded while decoding a JSON array from a unicode string".

Definition expecting_value : exn :=
  mk_exn "JSONDecodeError" "Expecting value: line 1 column 1 (char 0)".

(** A parser that knows two documents, gives up on [deep_brackets] and
    rejects everything else. *)
Definition loads (s : string) : res json :=
  if String.eqb s "{}" then Ok (JObj [])
  else if String.eqb s location_SF then Ok (JObj [("location", JStr "SF")])
  else if String.eqb s deep_brackets then Raise recursion_error
  else Raise expecting_value.

(** A printer for dicts of strings whose text needs no escaping. *)
Definition dumps_field (f : string * json) : string :=
  quote ++ fst f ++ quote ++ ": "
    ++ match snd f with
       | JStr s => quote ++ s ++ quote
       | _ => "null"
       end.

Definition dumps (v : json) : string :=
  match v with
  | JObj fields => "{" ++ String.concat ", " (map dumps_field fields) ++ "}"
  | _ => "null"
  end.

Definition next_reply (s : Script) : res HttpResponse * Script :=
  match replies s with
  | [] => (Raise connection_refused, s)
  | r :: rest => (r, mkScript (discovery s) rest (tool_outcomes s))
  end.

Definition next_tool_outcome (s : Script) : res (list ContentItem) * Script :=
  match tool_outcomes s with
  | [] => (Raise connection_refused, s)
  | r :: rest => (r, mkScript (discovery s) (replies s) rest)
  end.

Definition env : Collaborators Script :=
  mkCollaborators Script loads dumps
    (fun _ s => (Ok tt, s))
    (fun s => (discovery s, s))
    (fun _ _ => next_tool_outcome)
    (fun _ _ _ => next_reply).

Definition self : Config :=
  mkConfig "http://localhost:8001/mcp" "http://localhost:4000" "sk-1234".

Definition start (s : Script) : State Script := mkState s [] [] [] None.

(** [process_request(request, "gpt-3.5-turbo", max_tool_calls)] *)
Definition run (s : Script) (request : string) (max_tool_calls : Z)
  : option (res json) * State Script :=
  process_request env self request "gpt-3.5-turbo" max_tool_calls (start s).

Definition ok_reply (body : json) : res HttpResponse :=
  Ok (mkHttpResponse 200 (Ok body)).

Definition final_answer (content : string) : json :=
  JObj [("choices", JArr [JObj [("message",
           JObj [("role", JStr "assistant"); ("content", JStr content)])]]);
        ("usage", JObj [("total_tokens", JNum 42)])].

Definition function_call_turn (fname args : string) : json :=
  JObj [("choices", JArr [JObj [("message",
           JObj [("role", JStr "assistant"); ("content", JNull);
                 ("function_call",
                  JObj [("name", JStr fname); ("arguments", JStr args)])])]]);
        ("usage", JObj [("total_tokens", JNum 17)])].

Definition weather_tool : ProviderTool :=
  mkProviderTool "weather" "Current weather"
    (SchemaMapping
       [("type", JStr "object");
        ("properties", JObj [("location", JObj [("type", JStr "string")])])]).

Definition sunny : res (list ContentItem) :=
  Ok [mkContentItem (Some "Sunny, 65F") "TextContent"].

(** Scenario A: the first turn is a final answer, no tools are offered. *)
Definition scenario_a : Script :=
  mkScript (Ok []) [ok_reply (final_answer "Hello")] [].

(** Scenario C: the model keeps asking for the same tool. *)
Definition scenario_c : Script :=
  mkScript (Ok [weather_tool])
           (repeat (ok_reply (function_call_turn "weather" location_SF)) 7)
           (repeat sunny 7).

(** Scenario D: the tool provider refuses the connection. *)
Definition scenario_d : Script :=
  mkScript (Raise connection_refused) [ok_reply (final_answer "Hello")] [].

(** Scenario E: the arguments of the function call are not JSON. *)
Definition scenario_e : Script :=
  mkScript (Ok [weather_tool])
           [ok_reply (function_call_turn "weather" "not-json");
            ok_reply (final_answer "done")]
           [sunny].

(** A final answer in a reply whose [usage] is [null]. *)
Definition null_usage_reply : json :=
  JObj [("choices", JArr [JObj [("message",
           JObj [("role", JStr "assistant"); ("content", JStr "Hello")])]]);
        ("usage", JNull)].

Definition scenario_null_usage : Script :=
  mkScript (Ok []) [ok_reply null_usage_reply] [].



(** A tool that declares the schema of an object without properties. *)
Definition ping_tool : MCPTool := mkMCPTool "ping" "Ping" default_parameters.

Definition text_item : ContentItem :=
  mkContentItem (Some "Sunny, 65F") "TextContent".

(** Scenario B: one tool call, then the final answer. *)
Definition scenario_b : Script :=
  mkScript (Ok [weather_tool])
           [ok_reply (function_call_turn "weather" location_SF);
            ok_reply (final_answer "It's sunny in SF.")]
           [sunny].


(** The model backend answers with status 500. *)
Definition server_error : HttpResponse := mkHttpResponse 500 (Ok JNull).

Definition scenario_server_error : Script :=
  mkScript (Ok [weather_tool]) [Ok server_error] [].

(** The arguments of the function call are brackets nested too deep. *)
Definition scenario_deep_brackets : Script :=
  mkScript (Ok [weather_tool])
           [ok_reply (function_call_turn "weather" deep_brackets);
            ok_reply (final_answer "done")]
           [sunny].

(** A final answer in a reply whose [message] is [null]. *)
Definition null_message_reply : json :=
  JObj [("choices", JArr [JObj [("message", JNull)]]);
        ("usage", JObj [("total_tokens", JNum 42)])].

Definition scenario_null_message : Script :=
  mkScript (Ok []) [ok_reply null_message_reply] [].

(** A function call whose arguments are a mapping, not a string. *)
Definition mapping_arguments_reply : json :=
  JObj [("choices", JArr [JObj [("message",
           JObj [("role", JStr "assistant"); ("content", JNull);
                 ("function_call",
                  JObj [("name", JStr "weather");
                        ("arguments",
                         JObj [("location", JStr "SF")])])])]])].

Definition scenario_mapping_arguments : Script :=
  mkScript (Ok [weather_tool]) [ok_reply mapping_arguments_reply] [sunny].



Definition gpt : string := "gpt-3.5-turbo".

(** The weather tool as [_fetch_mcp_tools] returns it. *)
Definition weather : MCPTool := convert_provider_tool weather_tool.

End Scripted.

(** ** Runs of the loop, as the record of boundary calls shows them *)
Section Runs.

Variable W : Type.
Variable env : Collaborators W.

(** The name and the decoded arguments of a function call:
    [function_call.get("name")], then [json.loads] of
    [function_call.get("arguments", "{}")]. *)
Definition decode_call (function_call : json) : res (json * json) :=
  match get function_call "name" JNull with
  | Ok function_name =>
      match get function_call "arguments" (JStr "{}") with
      | Ok function_args_str =>
          match loads_or_empty env function_args_str with
          | Ok function_args => Ok (function_name, function_args)
          | Raise e => Raise e
          end
      | Raise e => Raise e
      end
  | Raise e => Raise e
  end.

(** What [final_response] evaluates to when the counter is [count]. *)
Definition final_value (message llm_response : json) (count : Z) : res json :=
  match get message "content" (JStr "") with
  | Ok response =>
      match total_tokens llm_response with
      | Ok tokens => Ok (success_result response count tokens)
      | Raise e => Raise e
      end
  | Raise e => Raise e
  end.

(** What [process_request] returns when its [try] block ends with [r] and
    the counter is [count]. *)
Definition finish (r : res json) (count : Z) : json :=
  match r with
  | Ok result => result
  | Raise e => failed_result (exn_str e) count
  end.

Section Loop.

Variable functions : option (list json).
Variable max_tool_calls : Z.

(** [loop_run count messages events r count' messages']: entered with the
    counter at [count] and the conversation [messages], the loop makes the
    boundary calls [events] and ends with [r], leaving [count'] and
    [messages']. *)
Inductive loop_run : Z -> list json -> list Event -> res json -> Z
                     -> list json -> Prop :=
| run_max_calls count messages :
    max_tool_calls <= count ->
    loop_run count messages []
      match partial_response messages with
      | Ok partial => Ok (exhausted_result max_tool_calls count partial)
      | Raise e => Raise e
      end
      count messages
| run_backend_error count messages e :
    count < max_tool_calls ->
    loop_run count messages [EvModel messages functions (Raise e)]
             (Raise e) count messages
| run_no_message count messages llm_response e :
    count < max_tool_calls ->
    assistant_message llm_response = Raise e ->
    loop_run count messages [EvModel messages functions (Ok llm_response)]
             (Raise e) count messages
| run_bad_message count messages llm_response message e :
    count < max_tool_calls ->
    assistant_message llm_response = Ok message ->
    get message "function_call" JNull = Raise e ->
    loop_run count messages [EvModel messages functions (Ok llm_response)]
             (Raise e) count (messages ++ [message])
| run_final count messages llm_response message function_call :
    count < max_tool_calls ->
    assistant_message llm_response = Ok message ->
    get message "function_call" JNull = Ok function_call ->
    truthy function_call = false ->
    loop_run count messages [EvModel messages functions (Ok llm_response)]
             (final_value message llm_response count) count
             (messages ++ [message])
| run_bad_call count messages llm_response message function_call e :
    count < max_tool_calls ->
    assistant_message llm_response = Ok message ->
    get message "function_call" JNull = Ok function_call ->
    truthy function_call = true ->
    decode_call function_call = Raise e ->
    loop_run count messages [EvModel messages functions (Ok llm_response)]
             (Raise e) (count + 1) (messages ++ [message])
| run_tool count messages llm_response message function_call
           function_name function_args tool_result events r count' messages' :
    count < max_tool_calls ->
    assistant_message llm_response = Ok message ->
    get message "function_call" JNull = Ok function_call ->
    truthy function_call = true ->
    decode_call function_call = Ok (function_name, function_args) ->
    loop_run (count + 1)
             (messages ++ [message;
                           function_message env function_name tool_result])
             events r count' messages' ->
    loop_run count messages
             (EvModel messages functions (Ok llm_response)
                :: EvTool function_name function_args (Ok tool_result)
                :: events)
             r count' messages'.

(** What the loop does with the [reply] to a model call made when the
    counter is [k] and the conversation [ms]: the calls [after] it, the
    result [r] of the loop, the counter and the conversation it leaves. *)
Definition reply_handled (k : Z) (ms : list json) (reply : res json)
           (after : list Event) (r : res json) (count' : Z)
           (messages' : list json) : Prop :=
  match reply with
  | Raise e => after = [] /\ r = Raise e /\ count' = k /\ messages' = ms
  | Ok llm_response =>
      match assistant_message llm_response with
      | Raise e => after = [] /\ r = Raise e /\ count' = k /\ messages' = ms
      | Ok message =>
          match get message "function_call" JNull with
          | Raise e =>
              after = [] /\ r = Raise e /\ count' = k
              /\ messages' = (ms ++ [message])%list
          | Ok function_call =>
              if truthy function_call then
                match decode_call function_call with
                | Raise e =>
                    after = [] /\ r = Raise e /\ count' = k + 1
                    /\ messages' = (ms ++ [message])%list
                | Ok (function_name, function_args) =>
                    exists tool_result after',
                      after = EvTool function_name function_args
                                     (Ok tool_result) :: after'
                      /\ loop_run (k + 1)
                           (ms ++ [message;
                                   function_message env function_name
                                                    tool_result])
                           after' r count' messages'
                end
              else
                after = [] /\ r = final_value message llm_response k
                /\ count' = k /\ messages' = (ms ++ [message])%list
          end
      end
  end.

End Loop.

(** [request_run request max events result messages']: a call of
    [process_request] that makes the boundary calls [events], returns
    [result] and leaves the conversation [messages']. *)
Inductive request_run (request : string) (max_tool_calls : Z)
  : list Event -> json -> list json -> Prop :=
| run_discovery_failed e :
    request_run request max_tool_calls [EvDiscover (Raise e)]
                (failed_result (exn_str e) 0) []
| run_discovered mcp_tools events r count' messages' :
    loop_run (functions_argument (_convert_mcp_tools_to_litellm mcp_tools))
             max_tool_calls 0 [user_message request] events r count'
             messages' ->
    request_run request max_tool_calls (EvDiscover (Ok mcp_tools) :: events)
                (finish r count') messages'.

End Runs.

Arguments decode_call {W} env function_call.
Arguments loop_run {W} env functions max_tool_calls _ _ _ _ _ _.
Arguments reply_handled {W} env functions max_tool_calls k ms reply after r
          count' messages'.
Arguments request_run {W} env request max_tool_calls _ _ _.

(** The boundary calls made between two states of one execution. *)
Definition run_events {W} (before after : State W) : list Event :=
  skipn (List.length (trace before)) (trace after).

(** How many times [_execute_mcp_tool] was called. *)
Fixpoint count_tool_calls (events : list Event) : Z :=
  match events with
  | [] => 0
  | EvTool _ _ _ :: rest => 1 + count_tool_calls rest
  | _ :: rest => count_tool_calls rest
  end.

Definition is_model_call (ev : Event) : bool :=
  match ev with
  | EvModel _ _ _ => true
  | _ => false
  end.

(** What the latest call of [_call_litellm] gave, if there was a call. *)
Fixpoint latest_reply (events : list Event) : option (res json) :=
  match events with
  | [] => None
  | ev :: rest =>
      match latest_reply rest with
      | Some reply => Some reply
      | None =>
          match ev with
          | EvModel _ _ reply => Some reply
          | _ => None
          end
      end
  end.


(** An assistant message that holds a function-call request
    [{name, arguments}] with string-encoded arguments. *)
Definition is_function_call_request (message : json) : bool :=
  match message with
  | JObj fields =>
      match dict_get fields "function_call" JNull with
      | JObj call =>
          truthy (JObj call)
          && match dict_get call "arguments" (JStr "{}") with
             | JStr _ => true
             | _ => false
             end
      | _ => false
      end
  | _ => false
  end.

(** [json.loads] settles a text when it parses it or rejects it with
    [json.JSONDecodeError]. *)
Definition loads_settles {W} (env : Collaborators W) (s : string) : bool :=
  match json_loads env s with
  | Ok _ => true
  | Raise e => is_JSONDecodeError e
  end.

(** A function-call request whose arguments [json.loads] settles. *)
Definition is_decodable_request {W} (env : Collaborators W) (message : json)
  : bool :=
  match message with
  | JObj fields =>
      match dict_get fields "function_call" JNull with
      | JObj call =>
          truthy (JObj call)
          && match dict_get call "arguments" (JStr "{}") with
             | JStr s => loads_settles env s
             | _ => false
             end
      | _ => false
      end
  | _ => false
  end.

(** The latest model turn is a function-call request, with arguments that
    [json.loads] settles. *)
Definition latest_turn_requests_function {W} (env : Collaborators W)
           (events : list Event) : bool :=
  match latest_reply events with
  | Some (Ok llm_response) =>
      match assistant_message llm_response with
      | Ok message => is_decodable_request env message
      | Raise _ => false
      end
  | _ => false
  end.



(** The shapes of the two failure dicts [process_request] returns. *)
Definition is_exhausted (max_tool_calls : Z) (result : json) : Prop :=
  exists count partial,
    result = exhausted_result max_tool_calls count partial.

Definition is_failed (result : json) : Prop :=
  exists error count, result = failed_result error count.

(** How many times [_call_litellm] was called. *)
Fixpoint count_model_calls (events : list Event) : Z :=
  match events with
  | [] => 0
  | EvModel _ _ _ :: rest => 1 + count_model_calls rest
  | _ :: rest => count_model_calls rest
  end.

Definition is_discovery (ev : Event) : bool :=
  match ev with
  | EvDiscover _ => true
  | _ => false
  end.

(** A statement that leaves [self.mcp_tools] as it found it. *)
Definition keeps_mcp_tools {W A} (m : M W A) : Prop :=
  forall st, self_mcp_tools (snd (m st)) = self_mcp_tools st.

(** ** The constructor *)

(** [os.getenv(key, default)]: the value of the variable when it is set,
    also when it is set to the empty string. *)
Definition getenv (environ : string -> option string) (key default : string)
  : string :=
  match environ key with
  | Some value => value
  | None => default
  end.

(** [argument or fallback] for an argument that is [None] or a string. *)
Definition or_else (argument : option string) (fallback : string) : string :=
  match argument with
  | Some value => if negb (String.eqb value "") then value else fallback
  | None => fallback
  end.

(** [def __init__(self, mcp_server_url=None, litellm_base_url=None,
    litellm_api_key=None)]: the three fields, and [self.mcp_tools = []]. *)
Definition __init__ (environ : string -> option string)
           (mcp_server_url litellm_base_url litellm_api_key : option string)
  : Config * list MCPTool :=
  (mkConfig
     (or_else mcp_server_url
        (getenv environ "MCP_SERVER_URL" "http://localhost:8001/mcp"))
     (or_else litellm_base_url
        (getenv environ "LITELLM_BASE_URL" "http://localhost:4000"))
     (or_else litellm_api_key (getenv environ "LITELLM_API_KEY" "sk-1234")),
   []).

(** ** The command line of [cli.py] *)

(** What [argparse] hands to [main]: [--prompt] (absent by default),
    [--model] and [--mcp-url]. *)
Record Args : Type := mkArgs {
  args_prompt : option string;
  args_model : string;
  args_mcp_url : string
}.

(** How a loop body ends: at its end or at [continue], or at [break]. *)
Inductive Flow : Type := Continue | Break.

(** [s * n] *)
Fixpoint times (s : string) (n : nat) : string :=
  match n with
  | O => ""
  | S n' => s ++ times s n'
  end.

(** The newline character. *)
Definition nl : string := String (ascii_of_nat 10) EmptyString.

(** [max_tool_calls: int = 5], the default of [process_request]. *)
Definition default_max_tool_calls : Z := 5.

(** [v > 0] *)
Definition greater_than_zero (v : json) : res bool :=
  match v with
  | JNum n => Ok (0 <? n)
  | JBool b => Ok b
  | _ => Raise (mk_exn "TypeError"
                  ("'>' not supported between instances of '"
                     ++ type_name v ++ "' and 'int'"))
  end.

Section Cli.

Variable W : Type.

(** The process environment, the terminal, and the builtins the command
    line applies to text it does not control. *)
Record Console : Type := mkConsole {
  environ : string -> option string;
  (* input(prompt) *)
  input : string -> W -> res string * W;
  (* str.strip and str.lower *)
  strip : string -> string;
  lower : string -> string;
  (* str(v) of a list or a dict *)
  repr : json -> string;
  (* json.dumps(v, indent=2) *)
  dumps_indent : json -> string
}.

(** The agent object and what has been printed, one entry per [print]. *)
Record Terminal : Type := mkTerminal {
  agent_state : State W;
  stdout : list string
}.

Definition C (A : Type) : Type := Terminal -> option (res A) * Terminal.

Definition cret {A} (a : A) : C A := fun t => (Some (Ok a), t).

Definition cbind {A B} (m : C A) (k : A -> C B) : C B :=
  fun t =>
    match m t with
    | (Some (Ok a), t') => k a t'
    | (Some (Raise e), t') => (Some (Raise e), t')
    | (None, t') => (None, t')
    end.

Definition craise {A} (e : exn) : C A := fun t => (Some (Raise e), t).

(** [try: body  except Exception as e: handler e] *)
Definition ctry {A} (body : C A) (handler : exn -> C A) : C A :=
  fun t =>
    match body t with
    | (Some (Raise e), t') => handler e t'
    | other => other
    end.

(** [try: body  finally: final] *)
Definition cfinally {A} (body : C A) (final : C unit) : C A :=
  fun t =>
    match body t with
    | (Some r, t') =>
        match final t' with
        | (Some (Ok _), t'') => (Some r, t'')
        | (Some (Raise e), t'') => (Some (Raise e), t'')
        | (None, t'') => (None, t'')
        end
    | (None, t') => (None, t')
    end.

Definition ceval {A} (r : res A) : C A := fun t => (Some r, t).

(** Run a method of the agent. *)
Definition on_agent {A} (m : M W A) : C A :=
  fun t =>
    let (r, st) := m (agent_state t) in (r, mkTerminal st (stdout t)).

(** [print(line)] on a standard output that takes the text: the line is
    added to what has been printed.  (Python's [print] raises
    [UnicodeEncodeError] on a text the encoding of the output cannot
    encode, a lone surrogate on a UTF-8 terminal; such texts are left
    out.) *)
Definition print (line : string) : C unit :=
  fun t => (Some (Ok tt), mkTerminal (agent_state t) (stdout t ++ [line])).

(** [print] of each line in turn. *)
Fixpoint print_lines (lines : list string) : C unit :=
  match lines with
  | [] => cret tt
  | line :: rest => cbind (print line) (fun _ => print_lines rest)
  end.

End Cli.

Arguments environ {W} _ _.
Arguments input {W} _ _ _.
Arguments strip {W} _ _.
Arguments lower {W} _ _.
Arguments repr {W} _ _.
Arguments dumps_indent {W} _ _.
Arguments mkTerminal {W} _ _.
Arguments agent_state {W} _.
Arguments stdout {W} _.
Arguments cret {W A} _ _.
Arguments cbind {W A B} _ _ _.
Arguments craise {W A} _ _.
Arguments ctry {W A} _ _ _.
Arguments cfinally {W A} _ _ _.
Arguments ceval {W A} _ _.
Arguments on_agent {W A} _ _.
Arguments print {W} _ _.
Arguments print_lines {W} _ _.

Declare Scope cli_scope.
Delimit Scope cli_scope with cli.
Notation "x <-- m ;; k" := (cbind m (fun x => k))
  (at level 61, m at next level, right associativity) : cli_scope.
Notation "m ;;- k" := (cbind m (fun _ => k))
  (at level 61, right associativity) : cli_scope.
Local Open Scope cli_scope.

Section CommandLine.

Variable W : Type.
Variable env : Collaborators W.
Variable console : Console W.

(** [str(v)], as an f-string renders a value. *)
Definition str (v : json) : string :=
  match v with
  | JStr s => s
  | JNull => "None"
  | JBool true => "True"
  | JBool false => "False"
  | JNum n => str_of_int n
  | _ => repr console v
  end.

(** [LiteLLMAgent()]: the configuration comes from the environment. *)
Definition agent_config : Config :=
  fst (__init__ (environ console) None None None).

(** [agent = LiteLLMAgent()]: a new agent, on the world as it is. *)
Definition new_agent : C W unit :=
  fun t =>
    (Some (Ok tt),
     mkTerminal
       (with_self_mcp_tools (agent_state t)
          (snd (__init__ (environ console) None None None)))
       (stdout t)).

(** [input(prompt).strip()] *)
Definition input_stripped (prompt : string) : C W string :=
  line <-- on_agent (external (input console prompt)) ;;
  cret (strip console line).

(** The [for tool in tools: print(...)] of the [tools] command. *)
Fixpoint print_tools (tools : list MCPTool) : C W unit :=
  match tools with
  | [] => cret tt
  | tool :: rest =>
      print ("  • " ++ name tool ++ ": " ++ description tool) ;;-
      print_tools rest
  end.

(** The [tools] command. *)
Definition tools_command : C W unit :=
  print (nl ++ "Fetching available MCP tools...") ;;-
  ctry
    (tools <-- on_agent (_fetch_mcp_tools env agent_config) ;;
     print (nl ++ "Available MCP tools ("
               ++ str_of_int (Z.of_nat (List.length tools)) ++ "):") ;;-
     print_tools tools)
    (fun e => print ("❌ Error fetching tools: " ++ exn_str e)).

(** The [models] command. *)
Definition models_command : C W unit :=
  print (nl ++ "Example supported models:") ;;-
  print "  • gpt-3.5-turbo" ;;-
  print "  • gpt-4" ;;-
  print "  • gpt-4-turbo" ;;-
  print "  • claude-3-sonnet-20240229" ;;-
  print "  • claude-3-haiku-20240307" ;;-
  print "  • gemini-pro" ;;-
  print "  • ollama/llama2 (if Ollama is running)".

(** The display of a result in interactive mode. *)
Definition display_result (result : json) : C W unit :=
  success <-- ceval (get result "success" JNull) ;;
  if negb (truthy success) then
    error <-- ceval (get result "error" (JStr "Unknown error")) ;;
    print ("❌ Error: " ++ str error)
  else
    response <-- ceval (get result "response" (JStr "No response")) ;;
    print ("🤖 Response: " ++ str response) ;;-
    made <-- ceval (get result "tool_calls_made" (JNum 0)) ;;
    used <-- ceval (greater_than_zero made) ;;
    (if used then print (nl ++ "🔧 Tools used: " ++ str made)
     else cret tt) ;;-
    tokens <-- ceval (get result "total_tokens" JNull) ;;
    if truthy tokens then print (nl ++ "📊 Tokens used: " ++ str tokens)
    else cret tt.

(** The statements under the inner [try:] of [interactive_mode]. *)
Definition interactive_body : C W Flow :=
  prompt <-- input_stripped (nl ++ "Enter your request: ") ;;
  let command := lower console prompt in
  if String.eqb command "quit" || String.eqb command "exit"
     || String.eqb command "q"
  then cret Break
  else if String.eqb command "tools" then tools_command ;;- cret Continue
  else if String.eqb command "models" then models_command ;;- cret Continue
  else if String.eqb prompt "" then cret Continue
  else
    typed <-- input_stripped "Model (press Enter for gpt-3.5-turbo): " ;;
    let model := if String.eqb typed "" then "gpt-3.5-turbo" else typed in
    print (nl ++ "Processing with " ++ model ++ "...") ;;-
    print (times "-" 40) ;;-
    result <-- on_agent (process_request env agent_config prompt model
                           default_max_tool_calls) ;;
    display_result result ;;-
    cret Continue.

(** One pass of [while True:], with its [except Exception as e:]. *)
Definition interactive_pass : C W Flow :=
  ctry interactive_body
       (fun e =>
          print (nl ++ "❌ Unexpected error: " ++ exn_str e) ;;-
          cret Continue).

(** [while True: ...]; [fuel] is the number of passes it may take. *)
Fixpoint interactive_loop (fuel : nat) : C W unit :=
  match fuel with
  | O => fun t => (None, t)
  | S fuel' =>
      flow <-- interactive_pass ;;
      match flow with
      | Break => cret tt
      | Continue => interactive_loop fuel'
      end
  end.

(** [async def interactive_mode()] *)
Definition interactive_mode (fuel : nat) : C W unit :=
  new_agent ;;-
  cfinally
    (print (nl ++ times "=" 60) ;;-
     print "LiteLLM MCP Agent - Interactive Mode" ;;-
     print (times "=" 60) ;;-
     print "Type 'quit', 'exit', or 'q' to exit" ;;-
     print "Type 'tools' to list available MCP tools" ;;-
     print "Type 'models' to see example supported models" ;;-
     print (times "-" 60) ;;-
     interactive_loop fuel)
    (print (nl ++ "Goodbye! 👋")).

(** [async def single_request_mode(prompt, model)].  The handler reads
    [json], which the [import] in the [try] block has not bound when
    [process_request] is what raised. *)
Definition single_request_mode (prompt model : string) : C W unit :=
  new_agent ;;-
  ctry
    (result <-- on_agent (process_request env agent_config prompt model
                            default_max_tool_calls) ;;
     print (dumps_indent console result))
    (fun e =>
       craise (mk_exn "UnboundLocalError"
                 "cannot access local variable 'json' where it is not associated with a value")).

(** [def main()], after [parser.parse_args()]. *)
Definition main (fuel : nat) (args : Args) : C W unit :=
  (if negb (String.eqb (args_mcp_url args) "http://localhost:8001/mcp")
   then print "Note: Custom MCP URL not yet supported in CLI. Using default."
   else cret tt) ;;-
  match args_prompt args with
  | Some prompt =>
      if negb (String.eqb prompt "")
      then single_request_mode prompt (args_model args)
      else interactive_mode fuel
  | None => interactive_mode fuel
  end.

End CommandLine.

Arguments str {W} console v.
Arguments agent_config {W} console.
Arguments new_agent {W} console _.
Arguments input_stripped {W} console prompt _.
Arguments print_tools {W} tools _.
Arguments tools_command {W} env console _.
Arguments models_command {W} _.
Arguments display_result {W} console result _.
Arguments interactive_body {W} env console _.
Arguments interactive_pass {W} env console _.
Arguments interactive_loop {W} env console fuel _.
Arguments interactive_mode {W} env console fuel _.
Arguments single_request_mode {W} env console prompt model _.
Arguments main {W} env console fuel args _.

(** ** A terminal for the examples

    The keyboard is a list of lines, read one per [input]; when they are
    used up [input] raises [EOFError].  The collaborators are those of
    [Scripted], on the script the session carries. *)
Module Keyboard.

Import Scripted.

Record Session : Type := mkSession {
  typed_lines : list string;
  script : Script
}.

Definition on_script {A} (f : Script -> res A * Script) (s : Session)
  : res A * Session :=
  let (r, script') := f (script s) in (r, mkSession (typed_lines s) script').

Definition env : Collaborators Session :=
  mkCollaborators Session loads dumps
    (fun _ s => (Ok tt, s))
    (on_script (fun b => (discovery b, b)))
    (fun _ _ => on_script next_tool_outcome)
    (fun _ _ _ => on_script next_reply).

Definition end_of_file : exn := mk_exn "EOFError" "EOF when reading a line".

Definition read_line (prompt : string) (s : Session) : res string * Session :=
  match typed_lines s with
  | [] => (Raise end_of_file, s)
  | line :: rest => (Ok line, mkSession rest (script s))
  end.

(** [str.strip] and [str.lower] on ASCII text. *)
Definition is_space (c : ascii) : bool :=
  let n := N_of_ascii c in
  (n =? 32)%N || ((9 <=? n)%N && (n <=? 13)%N)
  || ((28 <=? n)%N && (n <=? 31)%N).

Fixpoint lstrip (s : string) : string :=
  match s with
  | String c rest => if is_space c then lstrip rest else s
  | EmptyString => EmptyString
  end.

Fixpoint rstrip (s : string) : string :=
  match s with
  | String c rest =>
      let rest' := rstrip rest in
      if is_space c && String.eqb rest' "" then "" else String c rest'
  | EmptyString => EmptyString
  end.

Definition ascii_strip (s : string) : string := rstrip (lstrip s).

Definition lower_char (c : ascii) : ascii :=
  let n := N_of_ascii c in
  if (65 <=? n)%N && (n <=? 90)%N then ascii_of_N (n + 32) else c.

Fixpoint ascii_lower (s : string) : string :=
  match s with
  | String c rest => String (lower_char c) (ascii_lower rest)
  | EmptyString => EmptyString
  end.

(** No environment variable is set; dicts are printed on one line. *)
Definition console : Console Session :=
  mkConsole Session (fun _ => None) read_line ascii_strip ascii_lower
            dumps dumps.

(** The same with the standard input at its end. *)
Definition closed_stdin : Console Session :=
  mkConsole Session (fun _ => None) (fun _ s => (Raise end_of_file, s))
            ascii_strip ascii_lower dumps dumps.

Definition terminal (lines : list string) (s : Script) : Terminal Session :=
  mkTerminal (mkState (mkSession lines s) [] [] [] None) [].

End Keyboard.

(** ** The methods meet the relations *)
Section Soundness.

Variable W : Type.
Variable env : Collaborators W.
Variable self : Config.

Lemma fetch_mcp_tools_spec (st : State W) :
  exists r w,
    _fetch_mcp_tools env self st
    = (Some r, record (EvDiscover r) (with_world st w)).
Proof.
  unfold _fetch_mcp_tools, recording, try_except, bind, external, ret, raise.
  destruct (open_session env (mcp_server_url self) (world st)) as [[[]|e] w1];
    cbn.
  - destruct (list_tools env w1) as [[tools|e] w2]; cbn;
      eexists; exists w2; reflexivity.
  - eexists; exists w1; reflexivity.
Qed.

Lemma fetch_mcp_tools_world (st1 st2 : State W) :
  world st1 = world st2 ->
  fst (_fetch_mcp_tools env self st1) = fst (_fetch_mcp_tools env self st2).
Proof.
  intros Hworld.
  unfold _fetch_mcp_tools, recording, try_except, bind, external, ret, raise.
  rewrite Hworld.
  destruct (open_session env (mcp_server_url self) (world st2)) as [[[]|e] w1];
    cbn; [|reflexivity].
  now destruct (list_tools env w1) as [[tools|e] w2].
Qed.

Lemma call_litellm_spec (st : State W) ms model fns :
  exists r w,
    _call_litellm env self ms model fns st
    = (Some r, record (EvModel ms fns r) (with_world st w)).
Proof.
  unfold _call_litellm, recording, try_except, bind, external, ret, raise, eval.
  destruct (http_post env _ _ _ (world st)) as [[response|e] w1]; cbn.
  - destruct (negb (status_code response =? 200)); cbn.
    + eexists; exists w1; reflexivity.
    + destruct (response_json response); eexists; exists w1; reflexivity.
  - eexists; exists w1; reflexivity.
Qed.

Lemma execute_mcp_tool_spec (st : State W) tool arguments :
  exists v w,
    _execute_mcp_tool env self tool arguments st
    = (Some (Ok v), record (EvTool tool arguments (Ok v)) (with_world st w)).
Proof.
  unfold _execute_mcp_tool, recording, try_except, bind, external, ret.
  destruct (open_session env (mcp_server_url self) (world st)) as [[[]|e] w1];
    cbn.
  - destruct (call_tool env tool arguments w1) as [[[|item rest]|e] w2]; cbn;
      eexists; exists w2; reflexivity.
  - eexists; exists w1; reflexivity.
Qed.


Lemma final_response_spec (st : State W) count message llm_response :
  tool_call_count st = Some count ->
  final_response message llm_response st
  = (Some (final_value message llm_response count), st).
Proof.
  intros Hcount.
  cbv [final_response final_value bind eval get_tool_call_count ret].
  destruct (get message "content" (JStr "")); [|reflexivity].
  rewrite Hcount. now destruct (total_tokens llm_response).
Qed.

Lemma execute_function_call_spec (st : State W) count function_call :
  tool_call_count st = Some count ->
  match decode_call env function_call with
  | Ok (function_name, function_args) =>
      exists tool_result w,
        execute_function_call env self function_call st
        = (Some (Ok tt),
           with_messages
             (record (EvTool function_name function_args (Ok tool_result))
                (with_world (with_tool_call_count st (Some (count + 1))) w))
             (messages st
                ++ [function_message env function_name tool_result]))
  | Raise e =>
      execute_function_call env self function_call st
      = (Some (Raise e), with_tool_call_count st (Some (count + 1)))
  end.
Proof.
  intros Hcount.
  cbv [execute_function_call decode_call bind eval get_tool_call_count
       set_tool_call_count messages_append].
  rewrite Hcount.
  destruct (get function_call "name" JNull) as [function_name|e];
    [|reflexivity].
  destruct (get function_call "arguments" (JStr "{}")) as [args_str|e];
    [|reflexivity].
  destruct (loads_or_empty env args_str) as [function_args|e]; [|reflexivity].
  destruct (execute_mcp_tool_spec
              (with_tool_call_count st (Some (count + 1)))
              function_name function_args) as (tool_result & w & ->).
  now exists tool_result, w.
Qed.

Variable model : string.
Variable max_tool_calls : Z.

Lemma max_calls_reached_spec (st : State W) count :
  tool_call_count st = Some count ->
  max_calls_reached max_tool_calls st
  = (Some match partial_response (messages st) with
          | Ok partial => Ok (exhausted_result max_tool_calls count partial)
          | Raise e => Raise e
          end, st).
Proof.
  intros Hcount.
  cbv [max_calls_reached bind get_tool_call_count get_messages eval ret].
  rewrite Hcount. now destruct (partial_response (messages st)).
Qed.

Lemma while_loop_sound (litellm_functions : list json) :
  forall fuel (st : State W) count,
    tool_call_count st = Some count ->
    (Z.to_nat (max_tool_calls - count) <= fuel)%nat ->
    exists r st' events count',
      while_loop env self fuel model max_tool_calls litellm_functions st
      = (Some r, st')
      /\ trace st' = (trace st ++ events)%list
      /\ tool_call_count st' = Some count'
      /\ loop_run env (functions_argument litellm_functions) max_tool_calls
                  count (messages st) events r count' (messages st').
Proof.
  set (fns := functions_argument litellm_functions).
  induction fuel as [|fuel IH]; intros st count Hcount Hfuel.
  all: cbn [while_loop]; unfold bind at 1, get_tool_call_count at 1;
    rewrite Hcount; destruct (Z.ltb_spec count max_tool_calls) as [Hlt|Hge].
  1: lia.
  1,3: rewrite (max_calls_reached_spec st count Hcount);
    eexists; exists st, [], count; rewrite app_nil_r;
    repeat split; try reflexivity; try assumption; now constructor.
  cbv [loop_body bind get_messages eval messages_append ret]. fold fns.
  destruct (call_litellm_spec st (messages st) model fns) as (reply & w & ->).
  destruct reply as [llm_response|e].
  2:{ exists (Raise e). eexists.
      exists [EvModel (messages st) fns (Raise e)], count.
      cbn. repeat split; try reflexivity; try assumption. now constructor. }
  destruct (assistant_message llm_response) as [message|e] eqn:Hmessage.
  2:{ exists (Raise e). eexists.
      exists [EvModel (messages st) fns (Ok llm_response)], count.
      cbn. repeat split; try reflexivity; try assumption. now constructor. }
  destruct (get message "function_call" JNull) as [function_call|e] eqn:Hcall.
  2:{ exists (Raise e). eexists.
      exists [EvModel (messages st) fns (Ok llm_response)], count.
      cbn. repeat split; try reflexivity; try assumption.
      now apply run_bad_message with (message := message). }
  match goal with
  | |- context [(if _ then _ else _) ?s] => set (st1 := s)
  end.
  assert (Hcount1 : tool_call_count st1 = Some count) by exact Hcount.
  destruct (truthy function_call) eqn:Htruthy; cbn [negb].
  - pose proof (execute_function_call_spec st1 count function_call Hcount1)
      as Hexec.
    destruct (decode_call env function_call)
      as [[function_name function_args]|e] eqn:Hdecode.
    + destruct Hexec as (tool_result & w' & ->).
      match goal with
      | |- context [while_loop _ _ _ _ _ _ ?s] => set (st2 := s)
      end.
      destruct (IH st2 (count + 1) eq_refl ltac:(lia))
        as (r & st' & events & count' & Hrun & Htrace & Hcount' & Hloop).
      exists r, st',
        (EvModel (messages st) fns (Ok llm_response)
           :: EvTool function_name function_args (Ok tool_result) :: events),
        count'.
      repeat split; try assumption.
      * rewrite Htrace. cbn. now rewrite <- !app_assoc.
      * eapply run_tool; eauto.
        cbn in Hloop. now rewrite <- app_assoc in Hloop.
    + rewrite Hexec.
      exists (Raise e). eexists.
      exists [EvModel (messages st) fns (Ok llm_response)], (count + 1).
      cbn. repeat split; try reflexivity.
      eapply run_bad_call; eauto.
  - rewrite (final_response_spec st1 count message llm_response Hcount1).
    destruct (final_value message llm_response count) as [result|e] eqn:Hfinal.
    all: eexists;
      exists st1, [EvModel (messages st) fns (Ok llm_response)], count;
      cbn; repeat split; try reflexivity; try assumption;
      rewrite <- Hfinal; eapply run_final; eauto.
Qed.

Lemma process_request_spec (st : State W) request :
  exists result st' events,
    process_request env self request model max_tool_calls st
    = (Some (Ok result), st')
    /\ trace st' = (trace st ++ events)%list
    /\ option_map EvDiscover (fst (_fetch_mcp_tools env self st))
       = hd_error events
    /\ request_run env request max_tool_calls events result (messages st').
Proof.
  cbv [process_request enter_process_request bind set_messages
       set_tool_call_count try_except set_self_mcp_tools on_exception].
  set (st0 := with_tool_call_count (with_messages st []) None).
  rewrite (fetch_mcp_tools_world st st0 eq_refl).
  destruct (fetch_mcp_tools_spec st0) as (d & w & ->).
  destruct d as [mcp_tools|e].
  - match goal with
    | |- context [while_loop _ _ _ _ _ _ ?s] => set (st1 := s)
    end.
    destruct (while_loop_sound (_convert_mcp_tools_to_litellm mcp_tools)
                (Z.to_nat max_tool_calls) st1 0 eq_refl
                ltac:(lia))
      as (r & st' & events & count' & -> & Htrace & Hcount' & Hloop).
    exists (finish r count'), st', (EvDiscover (Ok mcp_tools) :: events).
    repeat split.
    + destruct r; cbn; [reflexivity|now rewrite Hcount'].
    + rewrite Htrace. cbn. now rewrite <- app_assoc.
    + now constructor.
  - eexists. eexists. exists [EvDiscover (Raise e)].
    cbn. repeat split. constructor.
Qed.

End Soundness.

(** ** Records of boundary calls *)
Lemma skipn_length_app {A} (l1 l2 : list A) :
  skipn (List.length l1) (l1 ++ l2) = l2.
Proof. induction l1; cbn; auto. Qed.

Lemma run_events_app {W} (st st' : State W) events :
  trace st' = (trace st ++ events)%list -> run_events st st' = events.
Proof. intros H. unfold run_events. rewrite H. apply skipn_length_app. Qed.

Lemma count_tool_calls_nonneg events : 0 <= count_tool_calls events.
Proof.
  induction events as [|[| |] rest IH]; cbn [count_tool_calls]; lia.
Qed.

Lemma latest_reply_app events1 events2 :
  latest_reply (events1 ++ events2)
  = match latest_reply events2 with
    | Some reply => Some reply
    | None => latest_reply events1
    end.
Proof.
  induction events1 as [|ev rest IH]; cbn [latest_reply app].
  - now destruct (latest_reply events2).
  - rewrite IH. now destruct (latest_reply events2).
Qed.

Lemma partial_response_last front fields :
  partial_response (front ++ [JObj fields])
  = Ok (dict_get fields "content" (JStr "")).
Proof. unfold partial_response. now rewrite rev_unit. Qed.

Lemma failed_not_exhausted max_tool_calls error count :
  ~ is_exhausted max_tool_calls (failed_result error count).
Proof. intros (c & p & H). discriminate H. Qed.

Lemma success_not_exhausted max_tool_calls response count tokens :
  ~ is_exhausted max_tool_calls (success_result response count tokens).
Proof. intros (c & p & H). discriminate H. Qed.



(** ** What the run relation implies *)
Section RunFacts.

Variable W : Type.
Variable env : Collaborators W.
Variable functions : option (list json).
Variable max_tool_calls : Z.


(** A run from a model call on is a run of its own. *)
Lemma loop_run_suffix count messages events r count' messages' :
  loop_run env functions max_tool_calls count messages events r count'
           messages' ->
  forall before ms fs reply after,
    events = (before ++ EvModel ms fs reply :: after)%list ->
    loop_run env functions max_tool_calls (count + count_tool_calls before) ms
             (EvModel ms fs reply :: after) r count' messages'.
Proof.
  induction 1 as [count messages Hmax
                 |count messages e Hlt
                 |count messages llm e Hlt Hmsg
                 |count messages llm message e Hlt Hmsg Hcall
                 |count messages llm message fc Hlt Hmsg Hcall Htruthy
                 |count messages llm message fc e Hlt Hmsg Hcall Htruthy Hdec
                 |count messages llm message fc fname fargs v events r count'
                    messages' Hlt Hmsg Hcall Htruthy Hdec Hrun IH];
    intros before ms fs reply after Hsplit.
  1: now destruct before.
  1-5: destruct before as [|ev [|ev' before]]; try discriminate Hsplit;
    injection Hsplit as <- <- <- <-; cbn [count_tool_calls];
    rewrite Z.add_0_r; econstructor; eauto.
  destruct before as [|ev [|ev' before]].
  - injection Hsplit as <- <- <- <-. cbn [count_tool_calls].
    rewrite Z.add_0_r. econstructor; eauto.
  - discriminate Hsplit.
  - injection Hsplit as <- <- Hsplit. cbn [count_tool_calls].
    replace (count + (1 + count_tool_calls before))
      with (count + 1 + count_tool_calls before) by lia.
    now apply IH.
Qed.


Lemma loop_run_model_event count messages before ms fs reply after r count'
      messages' :
  loop_run env functions max_tool_calls count messages
           (before ++ EvModel ms fs reply :: after) r count' messages' ->
  let k := count + count_tool_calls before in
  k < max_tool_calls /\ fs = functions
  /\ reply_handled env functions max_tool_calls k ms reply after r count'
                   messages'.
Proof.
  intros Hrun k.
  pose proof (loop_run_suffix _ _ _ _ _ _ Hrun _ _ _ _ _ eq_refl) as Hsuffix.
  fold k in Hsuffix. clear Hrun.
  unfold reply_handled.
  inversion Hsuffix; subst; split; try assumption; split; try reflexivity.
  all: repeat match goal with
         | H : _ = Ok _ |- _ => rewrite H
         | H : _ = Raise _ |- _ => rewrite H
         | H : truthy _ = _ |- _ => rewrite H
         end; auto.
  eauto.
Qed.


Lemma loop_run_nil count messages r count' messages' :
  loop_run env functions max_tool_calls count messages [] r count' messages' ->
  max_tool_calls <= count /\ count' = count /\ messages' = messages
  /\ r = match partial_response messages with
         | Ok partial => Ok (exhausted_result max_tool_calls count partial)
         | Raise e => Raise e
         end.
Proof. intros Hrun. inversion Hrun; subst; auto. Qed.

Lemma loop_run_counts count messages events r count' messages' :
  loop_run env functions max_tool_calls count messages events r count'
           messages' ->
  count + count_tool_calls events <= count'
  /\ count' <= count + count_tool_calls events + 1
  /\ (forall result, r = Ok result ->
        count' = count + count_tool_calls events)
  /\ count' <= Z.max count max_tool_calls.
Proof.
  induction 1 as
                 [count messages Hmax
                 |count messages e Hlt
                 |count messages llm e Hlt Hmsg
                 |count messages llm message e Hlt Hmsg Hcall
                 |count messages llm message fc Hlt Hmsg Hcall Htruthy
                 |count messages llm message fc e Hlt Hmsg Hcall Htruthy Hdec
                 |count messages llm message fc fname fargs v events r count'
                    messages' Hlt Hmsg Hcall Htruthy Hdec Hrun IH];
    cbn [count_tool_calls]; repeat split; try intros result Hresult; try lia;
    try discriminate.
  destruct IH as (_ & _ & Hok & _). rewrite (Hok _ Hresult). lia.
Qed.

Lemma loop_run_reports count messages events r count' messages' :
  loop_run env functions max_tool_calls count messages events r count'
           messages' ->
  get (finish r count') "tool_calls_made" JNull = Ok (JNum count').
Proof.
  induction 1 as
                 [count messages Hmax
                 |count messages e Hlt
                 |count messages llm e Hlt Hmsg
                 |count messages llm message e Hlt Hmsg Hcall
                 |count messages llm message fc Hlt Hmsg Hcall Htruthy
                 |count messages llm message fc e Hlt Hmsg Hcall Htruthy Hdec
                 |count messages llm message fc fname fargs v events r count'
                    messages' Hlt Hmsg Hcall Htruthy Hdec Hrun IH];
    try reflexivity; try assumption.
  - now destruct (partial_response messages).
  - unfold final_value.
    destruct (get message "content" (JStr "")); [|reflexivity].
    now destruct (total_tokens llm).
Qed.


Lemma is_decodable_request_spec message function_call :
  get message "function_call" JNull = Ok function_call ->
  is_decodable_request env message
  = truthy function_call
    && match decode_call env function_call with
       | Ok _ => true
       | Raise _ => false
       end.
Proof.
  destruct message as [| | | | |fields]; try discriminate.
  intros [= <-]. unfold is_decodable_request, decode_call.
  destruct (dict_get fields "function_call" JNull) as [| | | | |call];
    cbn [get]; try now rewrite andb_false_r.
  destruct (dict_get call "arguments" (JStr "{}")) as [| | |s| |];
    cbn [loads_or_empty]; try reflexivity.
  unfold loads_settles.
  destruct (json_loads env s) as [v|e]; [reflexivity|].
  now destruct (is_JSONDecodeError e).
Qed.

Lemma is_decodable_request_raise message e :
  get message "function_call" JNull = Raise e ->
  is_decodable_request env message = false.
Proof. destruct message; try reflexivity. discriminate. Qed.


Lemma final_value_not_exhausted message llm_response count count' :
  ~ is_exhausted max_tool_calls
      (finish (final_value message llm_response count) count').
Proof.
  unfold final_value.
  destruct (get message "content" (JStr ""));
    [destruct (total_tokens llm_response)|]; cbn [finish].
  - apply success_not_exhausted.
  - apply failed_not_exhausted.
  - apply failed_not_exhausted.
Qed.

(** The loop ends in the statements after it exactly when the counter is at
    the maximum and the latest model turn asked for a function. *)
Lemma loop_run_exhausted count messages events r count' messages' :
  loop_run env functions max_tool_calls count messages events r count'
           messages' ->
  forall previous,
    count <= max_tool_calls ->
    (max_tool_calls <= count ->
     latest_turn_requests_function env previous = true
     /\ exists front fields, messages = (front ++ [JObj fields])%list) ->
    is_exhausted max_tool_calls (finish r count')
    <-> count' = max_tool_calls
        /\ latest_turn_requests_function env (previous ++ events) = true.
Proof.
  induction 1 as [count messages Hmax
                 |count messages e Hlt
                 |count messages llm e Hlt Hmsg
                 |count messages llm message e Hlt Hmsg Hcall
                 |count messages llm message fc Hlt Hmsg Hcall Htruthy
                 |count messages llm message fc e Hlt Hmsg Hcall Htruthy Hdec
                 |count messages llm message fc fname fargs v events r count'
                    messages' Hlt Hmsg Hcall Htruthy Hdec Hrun IH];
    intros previous Hle Hprev.
  - destruct (Hprev Hmax) as (Hlatest & front & fields & ->).
    rewrite partial_response_last, app_nil_r. cbn [finish].
    split; [intros _; split; [lia|assumption]|].
    intros _. now eexists; eexists.
  - split; [intros H; now apply failed_not_exhausted in H|].
    intros [_ H]. unfold latest_turn_requests_function in H.
    rewrite latest_reply_app in H. discriminate H.
  - split; [intros H; now apply failed_not_exhausted in H|].
    intros [_ H]. unfold latest_turn_requests_function in H.
    rewrite latest_reply_app in H. cbn in H. rewrite Hmsg in H. discriminate H.
  - split; [intros H; now apply failed_not_exhausted in H|].
    intros [_ H]. unfold latest_turn_requests_function in H.
    rewrite latest_reply_app in H. cbn in H. rewrite Hmsg in H.
    now rewrite (is_decodable_request_raise _ _ Hcall) in H.
  - split; [intros H; now apply final_value_not_exhausted in H|].
    intros [_ H]. unfold latest_turn_requests_function in H.
    rewrite latest_reply_app in H. cbn in H. rewrite Hmsg in H.
    rewrite (is_decodable_request_spec _ _ Hcall), Htruthy in H.
    discriminate H.
  - split; [intros H; now apply failed_not_exhausted in H|].
    intros [_ H]. unfold latest_turn_requests_function in H.
    rewrite latest_reply_app in H. cbn in H. rewrite Hmsg in H.
    rewrite (is_decodable_request_spec _ _ Hcall), Hdec, andb_false_r in H.
    discriminate H.
  - specialize (IH (previous ++ [EvModel messages functions (Ok llm);
                                 EvTool fname fargs (Ok v)])%list).
    rewrite <- app_assoc in IH. apply IH; [lia|].
    intros _. split.
    + unfold latest_turn_requests_function.
      rewrite latest_reply_app. cbn. rewrite Hmsg.
      now rewrite (is_decodable_request_spec _ _ Hcall), Htruthy, Hdec.
    + exists (messages ++ [message])%list. eexists.
      unfold function_message. rewrite <- app_assoc. reflexivity.
Qed.

(** A run in which the tool was called as often as the counter allows ends
    in the statements after the loop. *)
Lemma loop_run_max_calls count messages events r count' messages' :
  loop_run env functions max_tool_calls count messages events r count'
           messages' ->
  count <= max_tool_calls ->
  (exists front fields, messages = (front ++ [JObj fields])%list) ->
  count + count_tool_calls events = max_tool_calls ->
  exists front latest partial,
    r = Ok (exhausted_result max_tool_calls max_tool_calls partial)
    /\ count' = max_tool_calls
    /\ messages' = (front ++ [latest])%list
    /\ get latest "content" (JStr "") = Ok partial.
Proof.
  induction 1 as [count messages Hmax
                 |count messages e Hlt
                 |count messages llm e Hlt Hmsg
                 |count messages llm message e Hlt Hmsg Hcall
                 |count messages llm message fc Hlt Hmsg Hcall Htruthy
                 |count messages llm message fc e Hlt Hmsg Hcall Htruthy Hdec
                 |count messages llm message fc fname fargs v events r count'
                    messages' Hlt Hmsg Hcall Htruthy Hdec Hrun IH];
    intros Hle Hlast Hcalls; cbn [count_tool_calls] in Hcalls; try lia.
  - destruct Hlast as (front & fields & ->).
    rewrite partial_response_last.
    exists front, (JObj fields), (dict_get fields "content" (JStr "")).
    replace count with max_tool_calls by lia. now repeat split.
  - apply IH; [lia| |lia].
    exists (messages ++ [message])%list. eexists.
    unfold function_message. rewrite <- app_assoc. reflexivity.
Qed.







(** After a tool call the loop calls the model again with the answered
    conversation, or the counter is at the maximum and the run ends in the
    statements after the loop. *)
Lemma loop_run_continues count front fields events r count' messages' :
  loop_run env functions max_tool_calls count (front ++ [JObj fields])
           events r count' messages' ->
  match events with
  | [] =>
      messages' = (front ++ [JObj fields])%list
      /\ count' = count
      /\ is_exhausted max_tool_calls (finish r count')
  | next :: _ =>
      exists reply, next = EvModel (front ++ [JObj fields]) functions reply
  end.
Proof.
  intros Hrun. destruct events as [|next rest].
  - apply loop_run_nil in Hrun as (_ & -> & -> & ->).
    rewrite partial_response_last. repeat split. now eexists; eexists.
  - inversion Hrun; subst; now eexists.
Qed.

End RunFacts.

(** ** The claims about [process_request] *)
Section Claims.
Variable W : Type.
Variable env : Collaborators W.
Variable self : Config.

(** Every call of [process_request] returns a dict, and its record of
    boundary calls is a [request_run]. *)
Lemma process_request_run (st : State W) request model max_tool_calls :
  let out := process_request env self request model max_tool_calls st in
  exists result,
    fst out = Some (Ok result)
    /\ request_run env request max_tool_calls (run_events st (snd out)) result
                   (messages (snd out))
    /\ option_map EvDiscover (fst (_fetch_mcp_tools env self st))
       = hd_error (run_events st (snd out)).
Proof.
  destruct (process_request_spec W env self model max_tool_calls st request)
    as (result & st' & events & Hrun & Htrace & Hfetch & Hrequest).
  cbv zeta. rewrite Hrun. cbn [fst snd].
  rewrite (run_events_app _ _ _ Htrace). now exists result.
Qed.

Lemma request_run_model_event request max_tool_calls events result messages'
      before ms fs reply after :
  request_run env request max_tool_calls events result messages' ->
  events = (before ++ EvModel ms fs reply :: after)%list ->
  exists mcp_tools before' r count',
    before = EvDiscover (Ok mcp_tools) :: before'
    /\ count_tool_calls before = count_tool_calls before'
    /\ result = finish r count'
    /\ loop_run env
         (functions_argument (_convert_mcp_tools_to_litellm mcp_tools))
         max_tool_calls 0 [user_message request]
         (before' ++ EvModel ms fs reply :: after) r count' messages'.
Proof.
  intros Hrun Hsplit.
  destruct Hrun as [e|mcp_tools events r count' messages' Hloop].
  - destruct before as [|ev [|ev' before]]; discriminate Hsplit.
  - destruct before as [|ev before]; [discriminate Hsplit|].
    injection Hsplit as <- ->.
    now exists mcp_tools, before, r, count'.
Qed.


(** What [process_request] does with the reply to any of its model calls. *)
Lemma process_request_model_event (st : State W) request model max_tool_calls :
  let out := process_request env self request model max_tool_calls st in
  forall before ms fs reply after,
    run_events st (snd out) = (before ++ EvModel ms fs reply :: after)%list ->
    exists functions r count',
      fst out = Some (Ok (finish r count'))
      /\ fs = functions
      /\ reply_handled env functions max_tool_calls (count_tool_calls before)
                       ms reply after r count' (messages (snd out)).
Proof.
  intros out before ms fs reply after Hsplit.
  destruct (process_request_run st request model max_tool_calls)
    as (result & Hout & Hrun & _).
  fold out in Hout, Hrun.
  destruct (request_run_model_event _ _ _ _ _ _ _ _ _ _ Hrun Hsplit)
    as (mcp_tools & before' & r & count' & -> & Hcalls & -> & Hloop).
  apply loop_run_model_event in Hloop as (_ & Hfs & Hhandled).
  rewrite Z.add_0_l, <- Hcalls in Hhandled.
  eauto 6.
Qed.


(** C8, amended: when the reply to a model call carries an assistant
    message without a function call, and its [usage] is absent or a
    mapping, [process_request] makes no further call and returns the
    success dict with the message's content, the number of tool calls made
    so far, and the [total_tokens] of that reply. *)
Theorem final_answer_returns (st : State W) request model max_tool_calls :
  let out := process_request env self request model max_tool_calls st in
  forall before ms fs llm_response after fields tokens,
    run_events st (snd out)
    = (before ++ EvModel ms fs (Ok llm_response) :: after)%list ->
    assistant_message llm_response = Ok (JObj fields) ->
    truthy (dict_get fields "function_call" JNull) = false ->
    total_tokens llm_response = Ok tokens ->
    after = []
    /\ fst out = Some (Ok (success_result
                             (dict_get fields "content" (JStr ""))
                             (count_tool_calls before) tokens)).
Proof.
  intros out before ms fs llm_response after fields tokens Hsplit Hmessage
         Hcall Htokens.
  destruct (process_request_model_event st request model max_tool_calls
              before ms fs _ after Hsplit)
    as (functions & r & count' & Hout & _ & Hhandled).
  fold out in Hout. unfold reply_handled in Hhandled.
  rewrite Hmessage in Hhandled. cbn [get] in Hhandled.
  rewrite Hcall in Hhandled.
  destruct Hhandled as (-> & -> & -> & _).
  unfold final_value in Hout. cbn [get] in Hout. rewrite Htokens in Hout.
  now split.
Qed.




(** C7, amended: when the model asks for a function and [json.loads]
    rejects the arguments string with [json.JSONDecodeError], the next
    boundary call is the tool invocation, with the requested name and the
    empty mapping; after it the loop calls the model again with the
    answered conversation, or the counter is at the maximum and the run
    ends in the exhausted outcome. *)
Theorem malformed_arguments_become_empty (st : State W) request model
        max_tool_calls :
  let out := process_request env self request model max_tool_calls st in
  forall before ms fs llm_response after message call s e,
    run_events st (snd out)
    = (before ++ EvModel ms fs (Ok llm_response) :: after)%list ->
    assistant_message llm_response = Ok message ->
    get message "function_call" JNull = Ok (JObj call) ->
    truthy (JObj call) = true ->
    get (JObj call) "arguments" (JStr "{}") = Ok (JStr s) ->
    json_loads env s = Raise e ->
    exn_class e = "JSONDecodeError" ->
    exists tool_result after',
      after = EvTool (dict_get call "name" JNull) (JObj []) (Ok tool_result)
                :: after'
      /\ match after' with
         | [] =>
             exists result,
               fst out = Some (Ok result)
               /\ is_exhausted max_tool_calls result
         | next :: _ =>
             exists reply,
               next = EvModel
                        (ms ++ [message;
                                function_message env
                                  (dict_get call "name" JNull) tool_result])
                        fs reply
         end.
Proof.
  intros out before ms fs llm_response after message call s e Hsplit Hmessage
         Hcall Htruthy Hargs Hloads Hclass.
  destruct (process_request_model_event st request model max_tool_calls
              before ms fs _ after Hsplit)
    as (functions & r & count' & Hout & -> & Hhandled).
  fold out in Hout. unfold reply_handled in Hhandled.
  rewrite Hmessage, Hcall, Htruthy in Hhandled.
  unfold decode_call in Hhandled. rewrite Hargs in Hhandled.
  cbn [get loads_or_empty] in Hhandled. rewrite Hloads in Hhandled.
  unfold is_JSONDecodeError in Hhandled. rewrite Hclass in Hhandled.
  cbn [String.eqb Ascii.eqb Bool.eqb] in Hhandled.
  destruct Hhandled as (tool_result & after' & -> & Hloop).
  exists tool_result, after'. split; [reflexivity|].
  change (ms ++ [message;
                 function_message env (dict_get call "name" JNull)
                                  tool_result])%list
    with (ms ++ [message]
             ++ [function_message env (dict_get call "name" JNull)
                                  tool_result])%list in *.
  rewrite app_assoc in *. unfold function_message in *.
  apply loop_run_continues in Hloop.
  destruct after' as [|next rest].
  - destruct Hloop as (_ & _ & Hexhausted). rewrite Hout. eauto.
  - exact Hloop.
Qed.



Lemma request_run_discovered request max_tool_calls events result messages'
      mcp_tools :
  request_run env request max_tool_calls events result messages' ->
  hd_error events = Some (EvDiscover (Ok mcp_tools)) ->
  exists events' r count',
    events = EvDiscover (Ok mcp_tools) :: events'
    /\ result = finish r count'
    /\ loop_run env
         (functions_argument (_convert_mcp_tools_to_litellm mcp_tools))
         max_tool_calls 0 [user_message request] events' r count' messages'.
Proof.
  intros [e|mcp_tools' events' r count' messages'' Hloop] Hhead.
  - discriminate Hhead.
  - injection Hhead as ->. now exists events', r, count'.
Qed.

(** C1, amended: every call of [process_request] returns a dict whose
    [tool_calls_made] is the number of tool invocations made (one more when
    the run failed between counting a call and invoking the tool), so it
    starts at zero and grows by one per invocation; it stays zero when
    [max_tool_calls <= 0], never exceeds a non-negative [max_tool_calls],
    and when [max_tool_calls >= 1] the run ends in the exhausted outcome
    exactly when the counter equals [max_tool_calls] and the latest model
    turn is a function-call request whose arguments [json.loads] parsed or
    rejected with [json.JSONDecodeError]. *)
Theorem tool_call_counter_is_bounded (st : State W) request model
        max_tool_calls :
  let out := process_request env self request model max_tool_calls st in
  let calls := count_tool_calls (run_events st (snd out)) in
  exists result n,
    fst out = Some (Ok result)
    /\ get result "tool_calls_made" JNull = Ok (JNum n)
    /\ calls <= n <= calls + 1
    /\ (~ is_failed result -> n = calls)
    /\ (max_tool_calls <= 0 -> n = 0)
    /\ (0 <= max_tool_calls -> n <= max_tool_calls)
    /\ (1 <= max_tool_calls ->
        (is_exhausted max_tool_calls result
         <-> n = max_tool_calls
             /\ latest_turn_requests_function env (run_events st (snd out))
                = true)).
Proof.
  intros out calls.
  destruct (process_request_run st request model max_tool_calls)
    as (result & Hout & Hrun & _).
  fold out in Hout, Hrun. subst calls.
  destruct Hrun as [e|mcp_tools events r count' messages' Hloop].
  - exists (failed_result (exn_str e) 0), 0. cbn [count_tool_calls].
    repeat (split; [solve [intros; (assumption || reflexivity || lia)]|]).
    intros Hmax. split.
    + intros Hexhausted. now apply failed_not_exhausted in Hexhausted.
    + intros [Hn _]. lia.
  - exists (finish r count'), count'.
    pose proof (loop_run_counts _ _ _ _ _ _ _ _ _ _ Hloop)
      as (Hlow & Hhigh & Hok & Hbound).
    pose proof (count_tool_calls_nonneg events) as Hnonneg.
    cbn [count_tool_calls].
    split; [assumption|].
    split; [now apply loop_run_reports with (1 := Hloop)|].
    split; [lia|]. split; [|split; [lia|split; [lia|]]].
    + intros Hnot. destruct r as [result|e]; [now apply Hok with result|].
      exfalso. apply Hnot. now eexists; eexists.
    + intros Hmax.
      apply (loop_run_exhausted _ _ _ _ _ _ _ _ _ _ Hloop
               [EvDiscover (Ok mcp_tools)]); lia.
Qed.

(** C2: when the tools were discovered and the run made [max_tool_calls]
    tool invocations, [process_request] returns the failure dict whose
    error is "Maximum tool calls (N) reached" for [N = max_tool_calls],
    whose [tool_calls_made] is [max_tool_calls], and whose
    [partial_response] is the content of the last message of the
    conversation. *)
Theorem max_tool_calls_reached (st : State W) request model max_tool_calls :
  let out := process_request env self request model max_tool_calls st in
  forall mcp_tools,
    fst (_fetch_mcp_tools env self st) = Some (Ok mcp_tools) ->
    count_tool_calls (run_events st (snd out)) = max_tool_calls ->
    exists front latest partial,
      fst out
      = Some (Ok (JObj [("success", JBool false);
                        ("error",
                         JStr ("Maximum tool calls ("
                                 ++ str_of_int max_tool_calls ++ ") reached"));
                        ("tool_calls_made", JNum max_tool_calls);
                        ("partial_response", partial)]))
      /\ messages (snd out) = (front ++ [latest])%list
      /\ get latest "content" (JStr "") = Ok partial.
Proof.
  intros out mcp_tools Hfetch Hcalls.
  destruct (process_request_run st request model max_tool_calls)
    as (result & Hout & Hrun & Hhead).
  fold out in Hout, Hrun, Hhead. rewrite Hfetch in Hhead.
  symmetry in Hhead.
  destruct (request_run_discovered _ _ _ _ _ _ Hrun Hhead)
    as (events & r & count' & Hevents & -> & Hloop).
  rewrite Hevents in Hcalls. cbn [count_tool_calls] in Hcalls.
  pose proof (count_tool_calls_nonneg events) as Hnonneg.
  destruct (loop_run_max_calls _ _ _ _ _ _ _ _ _ _ Hloop)
    as (front & latest & partial & -> & _ & Hmessages & Hcontent);
    [lia| |lia|].
  - now exists [], [("role", JStr "user"); ("content", JStr request)].
  - now exists front, latest, partial.
Qed.

(** C6: when fetching the tools raises, [process_request] returns the
    failure dict with the text of that exception and zero tool calls, and
    the only boundary call of the run is the discovery: the model is never
    called. *)
Theorem discovery_failure_fails_the_run (st : State W) request model
        max_tool_calls :
  let out := process_request env self request model max_tool_calls st in
  forall e,
    fst (_fetch_mcp_tools env self st) = Some (Raise e) ->
    fst out = Some (Ok (failed_result (exn_str e) 0))
    /\ run_events st (snd out) = [EvDiscover (Raise e)]
    /\ forall ev, In ev (run_events st (snd out)) -> is_model_call ev = false.
Proof.
  intros out e Hfetch.
  destruct (process_request_run st request model max_tool_calls)
    as (result & Hout & Hrun & Hhead).
  fold out in Hout, Hrun, Hhead. rewrite Hfetch in Hhead.
  destruct Hrun as [e'|mcp_tools events r count' messages' Hloop];
    [|discriminate Hhead].
  injection Hhead as ->.
  repeat split; try assumption.
  intros ev [<-|[]]. reflexivity.
Qed.

End Claims.


(** ** The tool invoker *)
Section Invoker.
Variable W : Type.
Variable env : Collaborators W.
Variable self : Config.

(** C5: [_execute_mcp_tool] always returns a dict.  An exception from
    opening the session or from the call becomes
    [{"error": "Tool execution failed: ..."}] with the text of the
    exception; a result with content items becomes [{"result": ...}] with
    the text of the first item, or [str] of that item when it has no text
    (or an empty one), whatever items follow; a result without content
    becomes [{"result": "Tool executed successfully but returned no
    content"}]. *)
Theorem execute_mcp_tool_never_raises (st : State W) tool arguments :
  exists tool_result st',
    _execute_mcp_tool env self tool arguments st
    = (Some (Ok tool_result), st')
    /\ (forall e w,
          open_session env (mcp_server_url self) (world st) = (Raise e, w) ->
          tool_result
          = JObj [("error", JStr ("Tool execution failed: " ++ exn_str e))])
    /\ (forall w e w',
          open_session env (mcp_server_url self) (world st) = (Ok tt, w) ->
          call_tool env tool arguments w = (Raise e, w') ->
          tool_result
          = JObj [("error", JStr ("Tool execution failed: " ++ exn_str e))])
    /\ (forall w item others w',
          open_session env (mcp_server_url self) (world st) = (Ok tt, w) ->
          call_tool env tool arguments w = (Ok (item :: others), w') ->
          exists payload,
            tool_result = JObj [("result", JStr payload)]
            /\ (forall t, text item = Some t -> t <> "" -> payload = t)
            /\ (text item = None \/ text item = Some "" ->
                payload = item_str item))
    /\ (forall w w',
          open_session env (mcp_server_url self) (world st) = (Ok tt, w) ->
          call_tool env tool arguments w = (Ok [], w') ->
          tool_result
          = JObj [("result",
                   JStr "Tool executed successfully but returned no content")]).
Proof.
  unfold _execute_mcp_tool, recording, try_except, bind, external, ret.
  destruct (open_session env (mcp_server_url self) (world st))
    as [[[]|e] w1] eqn:Hopen; cbn [world with_world].
  - destruct (call_tool env tool arguments w1) as [[[|item rest]|e] w2]
      eqn:Hcall.
    + eexists; eexists; split; [reflexivity|].
      split; [intros e w [=]|].
      split; [intros w e w' [= <-] Hraise; congruence|].
      split; [intros w item others w' [= <-] Hitems; congruence|].
      reflexivity.
    + eexists; eexists; split; [reflexivity|].
      split; [intros e w [=]|].
      split; [intros w e w' [= <-] Hraise; congruence|].
      split; [|intros w w' [= <-] Hnone; congruence].
      intros w item' others w' [= <-] Hitems.
      rewrite Hcall in Hitems. injection Hitems as <- _ _.
      exists (first_item_text item). split; [reflexivity|].
      unfold first_item_text. split.
      * intros t -> Hne. apply String.eqb_neq in Hne. now rewrite Hne.
      * now intros [->| ->].
    + eexists; eexists; split; [reflexivity|].
      split; [intros e' w [=]|].
      split; [intros w e' w' [= <-] Hraise; congruence|].
      split; [intros w item others w' [= <-] Hitems; congruence|].
      intros w w' [= <-] Hnone; congruence.
  - eexists; eexists; split; [reflexivity|].
    split; [now intros e' w [= <- _]|].
    split; [intros w e' w' [=]|].
    split; [intros w item others w' [=]|].
    intros w w' [=].
Qed.

End Invoker.

(** ** The claims on the scripted conversations *)
Import Scripted.

(** Scenario C: five requests in a row with [max_tool_calls = 5] end in
    the exhausted outcome with the counter at five. *)
Lemma tool_call_counter_scenario_c :
  exists result,
    fst (run scenario_c "weather?" 5) = Some (Ok result)
    /\ get result "tool_calls_made" JNull = Ok (JNum 5)
    /\ is_exhausted 5 result.
Proof.
  destruct (tool_call_counter_is_bounded Script env self (start scenario_c)
              "weather?" gpt 5)
    as (result & n & Hout & Hn & _ & _ & _ & _ & Hexhausted).
  assert (Hresult : Some (Ok result)
                    = Some (Ok (exhausted_result 5 5
                                  (JStr (dumps (JObj [("result",
                                                       JStr "Sunny, 65F")]))))))
    by (rewrite <- Hout; vm_compute; reflexivity).
  injection Hresult as ->.
  injection Hn as <-.
  exists (exhausted_result 5 5
            (JStr (dumps (JObj [("result", JStr "Sunny, 65F")])))).
  split; [exact Hout|]. split; [reflexivity|].
  apply Hexhausted; [lia|]. split; reflexivity.
Defined.

(** Where the counter departs from the claim.  With
    [max_tool_calls = -1] the loop body never runs and the dict reports
    zero calls, which is more than the maximum.  With [max_tool_calls = 0]
    the run is exhausted though no model turn was taken.  With
    [max_tool_calls = 1] and arguments on which [json.loads] raises
    [RecursionError], the counter is at the maximum and the latest turn is
    a function-call request, yet the run has failed, and it has counted a
    call without invoking a tool. *)
Lemma tool_call_counter_departures :
  (exists result n,
      fst (run scenario_a "hi" (-1)) = Some (Ok result)
      /\ get result "tool_calls_made" JNull = Ok (JNum n)
      /\ ~ n <= -1)
  /\ (fst (run scenario_a "hi" 0)
      = Some (Ok (exhausted_result 0 0 (JStr "hi")))
      /\ latest_reply (run_events (start scenario_a)
                                  (snd (run scenario_a "hi" 0))) = None)
  /\ (fst (run scenario_deep_brackets "weather?" 1)
      = Some (Ok (failed_result
                    "maximum recursion depth exceeded while decoding a JSON array from a unicode string"
                    1))
      /\ latest_reply (run_events (start scenario_deep_brackets)
                          (snd (run scenario_deep_brackets "weather?" 1)))
         = Some (Ok (function_call_turn "weather" deep_brackets))
      /\ (exists message,
             assistant_message (function_call_turn "weather" deep_brackets)
             = Ok message
             /\ is_function_call_request message = true)
      /\ count_tool_calls
           (run_events (start scenario_deep_brackets)
                       (snd (run scenario_deep_brackets "weather?" 1))) = 0
      /\ ~ is_exhausted 1
            (failed_result
               "maximum recursion depth exceeded while decoding a JSON array from a unicode string"
               1)).
Proof.
  split; [|split].
  - exists (exhausted_result (-1) 0 (JStr "hi")), 0.
    split; [vm_compute; reflexivity|]. split; [reflexivity|lia].
  - split; vm_compute; reflexivity.
  - split; [vm_compute; reflexivity|]. split; [vm_compute; reflexivity|].
    split; [eexists; split; vm_compute; reflexivity|].
    split; [vm_compute; reflexivity|].
    intros (count & partial & [=]).
Qed.

(** Scenario C, the dict returned. *)
Lemma max_tool_calls_reached_scenario_c :
  count_tool_calls
    (run_events (start scenario_c) (snd (run scenario_c "weather?" 5))) = 5
  /\ exists partial,
      fst (run scenario_c "weather?" 5)
      = Some (Ok (JObj [("success", JBool false);
                        ("error", JStr "Maximum tool calls (5) reached");
                        ("tool_calls_made", JNum 5);
                        ("partial_response", partial)])).
Proof.
  split; [vm_compute; reflexivity|].
  destruct (max_tool_calls_reached Script env self (start scenario_c)
              "weather?" gpt 5 [weather])
    as (front & latest & partial & Hout & _).
  - vm_compute; reflexivity.
  - vm_compute; reflexivity.
  - exists partial. exact Hout.
Defined.


(** A tool whose schema is the schema of an object without properties gets
    that schema, which is the default one, though it declares a schema. *)
Lemma default_schema_is_passed_through :
  ~ (get (function_def ping_tool) "parameters" JNull
     = Ok (JObj default_parameters)
     <-> input_schema ping_tool = []).
Proof. intros [Hempty _]. discriminate (Hempty eq_refl). Qed.


(** The tool answers with one text item. *)
Lemma execute_mcp_tool_text_item :
  fst (_execute_mcp_tool env self (JStr "weather") (JObj [])
         (start scenario_e))
  = Some (Ok (JObj [("result", JStr "Sunny, 65F")])).
Proof.
  destruct (execute_mcp_tool_never_raises Script env self (start scenario_e)
              (JStr "weather") (JObj []))
    as (tool_result & st' & Hrun & _ & _ & Hitems & _).
  destruct (Hitems scenario_e text_item []
              (mkScript (discovery scenario_e) (replies scenario_e) [])
              eq_refl eq_refl)
    as (payload & -> & Htext & _).
  rewrite Hrun. cbn [fst].
  now rewrite (Htext "Sunny, 65F" eq_refl ltac:(discriminate)).
Defined.

(** Scenario D: the connection to the tool provider is refused. *)
Lemma discovery_failure_scenario_d :
  fst (run scenario_d "hi" 5)
  = Some (Ok (JObj [("success", JBool false);
                    ("error", JStr "All connection attempts failed");
                    ("tool_calls_made", JNum 0)]))
  /\ run_events (start scenario_d) (snd (run scenario_d "hi" 5))
     = [EvDiscover (Raise connection_refused)].
Proof.
  destruct (discovery_failure_fails_the_run Script env self (start scenario_d)
              "hi" gpt 5 connection_refused eq_refl)
    as (Hout & Hevents & _).
  split; [exact Hout|exact Hevents].
Defined.

(** Scenario E: the tool is called with the empty mapping. *)
Lemma malformed_arguments_scenario_e :
  exists tool_result after',
    skipn 2 (run_events (start scenario_e)
               (snd (run scenario_e "weather?" 5)))
    = EvTool (JStr "weather") (JObj []) (Ok tool_result) :: after'.
Proof.
  destruct (malformed_arguments_become_empty Script env self
              (start scenario_e) "weather?" gpt 5
              [EvDiscover (Ok [weather])] [user_message "weather?"]
              (Some [function_def weather])
              (function_call_turn "weather" "not-json")
              (skipn 2 (run_events (start scenario_e)
                          (snd (run scenario_e "weather?" 5))))
              (JObj [("role", JStr "assistant"); ("content", JNull);
                     ("function_call",
                      JObj [("name", JStr "weather");
                            ("arguments", JStr "not-json")])])
              [("name", JStr "weather"); ("arguments", JStr "not-json")]
              "not-json" expecting_value)
    as (tool_result & after' & Hafter & _).
  - vm_compute; reflexivity.
  - reflexivity.
  - reflexivity.
  - reflexivity.
  - reflexivity.
  - reflexivity.
  - reflexivity.
  - now exists tool_result, after'.
Defined.

(** Brackets nested too deep are not JSON, and [json.loads] gives up on
    them with [RecursionError]: the call is counted, the tool is not
    invoked, and the run ends failed. *)
Lemma deep_brackets_abort_the_run :
  json_loads env deep_brackets = Raise recursion_error
  /\ run_events (start scenario_deep_brackets)
                (snd (run scenario_deep_brackets "weather?" 5))
     = [EvDiscover (Ok [weather]);
        EvModel [user_message "weather?"] (Some [function_def weather])
                (Ok (function_call_turn "weather" deep_brackets))]
  /\ fst (run scenario_deep_brackets "weather?" 5)
     = Some (Ok (JObj [("success", JBool false);
                       ("error",
                        JStr "maximum recursion depth exceeded while decoding a JSON array from a unicode string");
                       ("tool_calls_made", JNum 1)])).
Proof. repeat split; vm_compute; reflexivity. Qed.

(** Scenario A: the first turn is the final answer "Hello". *)
Lemma final_answer_scenario_a :
  fst (run scenario_a "hi" 5)
  = Some (Ok (JObj [("success", JBool true);
                    ("response", JStr "Hello");
                    ("tool_calls_made", JNum 0);
                    ("total_tokens", JNum 42)])).
Proof.
  destruct (final_answer_returns Script env self (start scenario_a) "hi" gpt 5
              [EvDiscover (Ok [])] [user_message "hi"] None
              (final_answer "Hello") []
              [("role", JStr "assistant"); ("content", JStr "Hello")]
              (JNum 42))
    as (_ & Hout).
  - vm_compute; reflexivity.
  - reflexivity.
  - reflexivity.
  - reflexivity.
  - exact Hout.
Defined.

(** A final answer in a reply whose [usage] is [null], and a reply whose
    [message] is [null]: neither turn carries a function call, yet both
    runs fail. *)
Lemma final_answer_needs_mappings :
  (run_events (start scenario_null_usage)
              (snd (run scenario_null_usage "hi" 5))
   = [EvDiscover (Ok []);
      EvModel [user_message "hi"] None (Ok null_usage_reply)]
   /\ assistant_message null_usage_reply
      = Ok (JObj [("role", JStr "assistant"); ("content", JStr "Hello")])
   /\ fst (run scenario_null_usage "hi" 5)
      = Some (Ok (JObj [("success", JBool false);
                        ("error",
                         JStr "'NoneType' object has no attribute 'get'");
                        ("tool_calls_made", JNum 0)])))
  /\ (run_events (start scenario_null_message)
                 (snd (run scenario_null_message "hi" 5))
      = [EvDiscover (Ok []);
         EvModel [user_message "hi"] None (Ok null_message_reply)]
      /\ assistant_message null_message_reply = Ok JNull
      /\ total_tokens null_message_reply = Ok (JNum 42)
      /\ fst (run scenario_null_message "hi" 5)
         = Some (Ok (JObj [("success", JBool false);
                           ("error",
                            JStr "'NoneType' object has no attribute 'get'");
                           ("tool_calls_made", JNum 0)]))).
Proof. repeat split; vm_compute; reflexivity. Qed.



(** ** More of what a run shows *)
Section RunShape.

Variable W : Type.
Variable env : Collaborators W.
Variable functions : option (list json).
Variable max_tool_calls : Z.

(** Model calls and tool calls alternate, starting with a model call, and
    every model call is offered the same functions. *)
Lemma loop_run_alternates count messages events r count' messages' :
  loop_run env functions max_tool_calls count messages events r count'
           messages' ->
  count_tool_calls events <= count_model_calls events
  /\ count_model_calls events <= count_tool_calls events + 1
  /\ count_model_calls events <= Z.max 0 (max_tool_calls - count)
  /\ Forall (fun ev => is_discovery ev = false) events
  /\ forall ms fs reply, In (EvModel ms fs reply) events -> fs = functions.
Proof.
  induction 1 as [count messages Hmax
                 |count messages e Hlt
                 |count messages llm e Hlt Hmsg
                 |count messages llm message e Hlt Hmsg Hcall
                 |count messages llm message fc Hlt Hmsg Hcall Htruthy
                 |count messages llm message fc e Hlt Hmsg Hcall Htruthy Hdec
                 |count messages llm message fc fname fargs v events r count'
                    messages' Hlt Hmsg Hcall Htruthy Hdec Hrun IH];
    cbn [count_tool_calls count_model_calls].
  1: repeat split; try lia; [constructor|intros ms fs reply []].
  1-5: repeat split; try lia;
    [repeat constructor|intros ms fs reply [[= _ <- _]|[]]; reflexivity].
  destruct IH as (Hle & Hge & Hbound & Hnone & Hfs).
  repeat split; try lia.
  - repeat constructor. exact Hnone.
  - intros ms fs reply [[= _ <- _]|[[=]|Hin]]; [reflexivity|].
    now apply Hfs with ms reply.
Qed.

(** The conversation of a later model call is the one the loop was
    entered with and two messages for every tool call made since. *)
Lemma loop_run_appends count messages events r count' messages' :
  loop_run env functions max_tool_calls count messages events r count'
           messages' ->
  forall before ms fs reply after,
    events = (before ++ EvModel ms fs reply :: after)%list ->
    exists added,
      ms = (messages ++ added)%list
      /\ Z.of_nat (List.length added) = 2 * count_tool_calls before.
Proof.
  induction 1 as [count messages Hmax
                 |count messages e Hlt
                 |count messages llm e Hlt Hmsg
                 |count messages llm message e Hlt Hmsg Hcall
                 |count messages llm message fc Hlt Hmsg Hcall Htruthy
                 |count messages llm message fc e Hlt Hmsg Hcall Htruthy Hdec
                 |count messages llm message fc fname fargs v events r count'
                    messages' Hlt Hmsg Hcall Htruthy Hdec Hrun IH];
    intros before ms fs reply after Hsplit.
  1: now destruct before.
  1-5: destruct before as [|ev [|ev' before]]; try discriminate Hsplit;
    injection Hsplit as <- _ _ _; exists []; now rewrite app_nil_r.
  destruct before as [|ev [|ev' before]].
  - injection Hsplit as <- _ _ _. exists []. now rewrite app_nil_r.
  - discriminate Hsplit.
  - injection Hsplit as <- <- Hsplit.
    destruct (IH _ _ _ _ _ Hsplit) as (added & -> & Hlen).
    exists ([message; function_message env fname v] ++ added)%list.
    split; [now rewrite <- app_assoc|].
    rewrite length_app. cbn [List.length count_tool_calls]. lia.
Qed.

(** A run whose last boundary call is a tool call ends in the statements
    after the loop, with the encoded result of that call as the partial
    response. *)
Lemma loop_run_ends_with_tool count messages events r count' messages' :
  loop_run env functions max_tool_calls count messages events r count'
           messages' ->
  forall default tool arguments outcome,
    events <> [] ->
    last events default = EvTool tool arguments outcome ->
    exists tool_result,
      outcome = Ok tool_result
      /\ count' = max_tool_calls
      /\ r = Ok (exhausted_result max_tool_calls max_tool_calls
                   (JStr (json_dumps env tool_result))).
Proof.
  induction 1 as [count messages Hmax
                 |count messages e Hlt
                 |count messages llm e Hlt Hmsg
                 |count messages llm message e Hlt Hmsg Hcall
                 |count messages llm message fc Hlt Hmsg Hcall Htruthy
                 |count messages llm message fc e Hlt Hmsg Hcall Htruthy Hdec
                 |count messages llm message fc fname fargs v events r count'
                    messages' Hlt Hmsg Hcall Htruthy Hdec Hrun IH];
    intros default tool arguments outcome Hsome Hlast;
    try discriminate Hlast.
  1: contradiction.
  destruct events as [|next rest].
  - injection Hlast as <- <- <-.
    apply loop_run_nil in Hrun as (Hmax & -> & _ & ->).
    exists v. split; [reflexivity|]. split; [lia|].
    change (messages ++ [message; function_message env fname v])%list
      with (messages ++ [message] ++ [function_message env fname v])%list.
    rewrite app_assoc. unfold function_message at 1.
    rewrite partial_response_last. cbn. f_equal. f_equal. lia.
  - apply IH with (default := default) (tool := tool)
                  (arguments := arguments); [discriminate|exact Hlast].
Qed.

End RunShape.

Lemma convert_mcp_tools_to_litellm_map (mcp_tools : list MCPTool) :
  _convert_mcp_tools_to_litellm mcp_tools = map function_def mcp_tools.
Proof.
  assert (Hmap : forall tools acc,
             fold_left (fun fs tool => (fs ++ [function_def tool])%list)
                       tools acc
             = (acc ++ map function_def tools)%list).
  { induction tools as [|tool tools IH]; intros acc; cbn [fold_left map].
    - now rewrite app_nil_r.
    - rewrite IH, <- app_assoc. reflexivity. }
  apply Hmap.
Qed.

(** ** More properties of [process_request] and the model client *)
Section RunProperties.

Variable W : Type.
Variable env : Collaborators W.
Variable self : Config.

Lemma loop_run_extends functions max_tool_calls count messages events r
      count' messages' :
  loop_run env functions max_tool_calls count messages events r count'
           messages' ->
  exists added, messages' = (messages ++ added)%list.
Proof.
  induction 1 as [count messages Hmax
                 |count messages e Hlt
                 |count messages llm e Hlt Hmsg
                 |count messages llm message e Hlt Hmsg Hcall
                 |count messages llm message fc Hlt Hmsg Hcall Htruthy
                 |count messages llm message fc e Hlt Hmsg Hcall Htruthy Hdec
                 |count messages llm message fc fname fargs v events r count'
                    messages' Hlt Hmsg Hcall Htruthy Hdec Hrun IH].
  1-3: exists []; now rewrite app_nil_r.
  1-3: now exists [message].
  destruct IH as (added & ->).
  exists ([message; function_message env fname v] ++ added)%list.
  now rewrite <- app_assoc.
Qed.

Lemma fetch_mcp_tools_listed (st : State W) w1 tools w2 :
  open_session env (mcp_server_url self) (world st) = (Ok tt, w1) ->
  list_tools env w1 = (Ok tools, w2) ->
  fst (_fetch_mcp_tools env self st)
  = Some (Ok (map convert_provider_tool tools)).
Proof.
  intros Hopen Hlist.
  unfold _fetch_mcp_tools, recording, try_except, bind, external, ret.
  rewrite Hopen. cbn [world with_world]. now rewrite Hlist.
Qed.

(** X1: each run fetches the tools exactly once, before anything else:
    its first boundary call is the discovery and no later one is. *)
Theorem tools_are_discovered_once (st : State W) request model
        max_tool_calls :
  let out := process_request env self request model max_tool_calls st in
  exists outcome rest,
    run_events st (snd out) = EvDiscover outcome :: rest
    /\ fst (_fetch_mcp_tools env self st) = Some outcome
    /\ Forall (fun ev => is_discovery ev = false) rest.
Proof.
  intros out.
  destruct (process_request_run W env self st request model max_tool_calls)
    as (result & _ & Hrun & Hhead).
  fold out in Hrun, Hhead.
  destruct Hrun as [e|mcp_tools events r count' messages' Hloop];
    cbn [hd_error] in Hhead.
  - exists (Raise e), []. split; [reflexivity|].
    split; [|constructor].
    destruct (fst (_fetch_mcp_tools env self st)); [|discriminate Hhead].
    now injection Hhead as ->.
  - exists (Ok mcp_tools), events. split; [reflexivity|].
    split.
    + destruct (fst (_fetch_mcp_tools env self st)); [|discriminate Hhead].
      now injection Hhead as ->.
    + now apply loop_run_alternates in Hloop.
Qed.

(** X2: what the provider lists is what the model is offered: in every
    model call of the run the functions are the specs of the listed tools,
    in the order listed, and none at all when no tool is listed. *)
Theorem listed_tools_are_offered (st : State W) request model
        max_tool_calls :
  let out := process_request env self request model max_tool_calls st in
  forall w1 tools w2,
    open_session env (mcp_server_url self) (world st) = (Ok tt, w1) ->
    list_tools env w1 = (Ok tools, w2) ->
    forall ms fs reply,
      In (EvModel ms fs reply) (run_events st (snd out)) ->
      fs = match tools with
           | [] => None
           | _ :: _ =>
               Some (map (fun tool => function_def (convert_provider_tool tool))
                         tools)
           end.
Proof.
  intros out w1 tools w2 Hopen Hlist ms fs reply Hin.
  destruct (process_request_run W env self st request model max_tool_calls)
    as (result & _ & Hrun & Hhead).
  fold out in Hrun, Hhead.
  rewrite (fetch_mcp_tools_listed st w1 tools w2 Hopen Hlist) in Hhead.
  symmetry in Hhead.
  destruct (request_run_discovered _ _ _ _ _ _ _ _ Hrun Hhead)
    as (events & r & count' & Hevents & _ & Hloop).
  rewrite Hevents in Hin. destruct Hin as [[=]|Hin].
  apply loop_run_alternates in Hloop as (_ & _ & _ & _ & Hfs).
  rewrite (Hfs _ _ _ Hin), convert_mcp_tools_to_litellm_map, map_map.
  now destruct tools.
Qed.

(** X3: the model is called at most [max_tool_calls] times (never, when
    that is not positive), and model calls and tool calls alternate: there
    are as many tool calls as model calls, or one less. *)
Theorem model_calls_are_bounded (st : State W) request model max_tool_calls :
  let out := process_request env self request model max_tool_calls st in
  let events := run_events st (snd out) in
  count_model_calls events <= Z.max 0 max_tool_calls
  /\ count_tool_calls events <= count_model_calls events
  /\ count_model_calls events <= count_tool_calls events + 1.
Proof.
  intros out events.
  destruct (process_request_run W env self st request model max_tool_calls)
    as (result & _ & Hrun & _).
  fold out in Hrun. fold events in Hrun.
  destruct Hrun as [e|mcp_tools events' r count' messages' Hloop];
    cbn [count_model_calls count_tool_calls]; [lia|].
  apply loop_run_alternates in Hloop as (Hle & Hge & Hbound & _).
  rewrite Z.sub_0_r in Hbound. lia.
Qed.

(** X4: the conversation only grows: the conversation the run leaves
    extends that of each of its model calls, also when there is one call
    only, and a later model call gets the conversation of an earlier one
    with two messages added for every tool call made in between. *)
Theorem conversation_only_grows (st : State W) request model max_tool_calls :
  let out := process_request env self request model max_tool_calls st in
  (forall before ms fs reply after,
      run_events st (snd out) = (before ++ EvModel ms fs reply :: after)%list ->
      exists rest, messages (snd out) = (ms ++ rest)%list)
  /\ (forall before ms1 fs1 reply1 between ms2 fs2 reply2 after,
        run_events st (snd out)
        = (before ++ EvModel ms1 fs1 reply1
             :: between ++ EvModel ms2 fs2 reply2 :: after)%list ->
        exists added,
          ms2 = (ms1 ++ added)%list
          /\ Z.of_nat (List.length added) = 2 * count_tool_calls between).
Proof.
  intros out.
  destruct (process_request_run W env self st request model max_tool_calls)
    as (result & _ & Hrun & _).
  fold out in Hrun.
  split.
  - intros before ms fs reply after Hsplit.
    destruct (request_run_model_event _ _ _ _ _ _ _ _ _ _ _ _ Hrun Hsplit)
      as (mcp_tools & before' & r & count' & _ & _ & _ & Hloop).
    pose proof (loop_run_suffix _ _ _ _ _ _ _ _ _ _ Hloop _ _ _ _ _ eq_refl)
      as Hcall.
    now apply loop_run_extends in Hcall.
  - intros before ms1 fs1 reply1 between ms2 fs2 reply2 after Hsplit.
    destruct (request_run_model_event _ _ _ _ _ _ _ _ _ _ _ _ Hrun Hsplit)
      as (mcp_tools & before' & r & count' & _ & _ & _ & Hloop).
    pose proof (loop_run_suffix _ _ _ _ _ _ _ _ _ _ Hloop _ _ _ _ _ eq_refl)
      as Hfirst.
    destruct (loop_run_appends _ _ _ _ _ _ _ _ _ _ Hfirst
                (EvModel ms1 fs1 reply1 :: between) ms2 fs2 reply2 after
                eq_refl) as (added & Hadded & Hlen).
    now exists added.
Qed.

(** X5: with [max_tool_calls <= 0] and the tools discovered, the model is
    never called: the run returns the exhausted dict at once, with zero
    calls and the request itself as the partial response. *)
Theorem no_budget_no_model_call (st : State W) request model max_tool_calls :
  let out := process_request env self request model max_tool_calls st in
  forall mcp_tools,
    fst (_fetch_mcp_tools env self st) = Some (Ok mcp_tools) ->
    max_tool_calls <= 0 ->
    fst out = Some (Ok (exhausted_result max_tool_calls 0 (JStr request)))
    /\ run_events st (snd out) = [EvDiscover (Ok mcp_tools)]
    /\ messages (snd out) = [user_message request].
Proof.
  intros out mcp_tools Hfetch Hmax.
  destruct (process_request_run W env self st request model max_tool_calls)
    as (result & Hout & Hrun & Hhead).
  fold out in Hout, Hrun, Hhead. rewrite Hfetch in Hhead. symmetry in Hhead.
  destruct (request_run_discovered _ _ _ _ _ _ _ _ Hrun Hhead)
    as (events & r & count' & Hevents & -> & Hloop).
  rewrite Hevents.
  inversion Hloop; subst; try lia.
  repeat split. exact Hout.
Qed.

(** X6: when the last boundary call of a run is a tool call, the run ends
    in the exhausted outcome: the call returned a result, the counter is at
    [max_tool_calls], and the partial response is the JSON text of that
    result. *)
Theorem run_ending_with_a_tool_call (st : State W) request model
        max_tool_calls :
  let out := process_request env self request model max_tool_calls st in
  forall before tool arguments outcome,
    run_events st (snd out)
    = (before ++ [EvTool tool arguments outcome])%list ->
    exists tool_result,
      outcome = Ok tool_result
      /\ fst out
         = Some (Ok (exhausted_result max_tool_calls max_tool_calls
                       (JStr (json_dumps env tool_result)))).
Proof.
  intros out before tool arguments outcome Hsplit.
  destruct (process_request_run W env self st request model max_tool_calls)
    as (result & Hout & Hrun & _).
  fold out in Hout, Hrun. rewrite Hsplit in Hrun.
  inversion Hrun as [e Hevents|mcp_tools events r count' messages' Hloop
                                         Hevents].
  - destruct before as [|ev [|ev' before]]; discriminate Hevents.
  - subst result.
    assert (Hlast : last events (EvDiscover (Ok [])) = EvTool tool arguments
                                                              outcome).
    { destruct before as [|ev before]; [discriminate Hevents|].
      injection Hevents as _ ->. apply last_last. }
    assert (Hsome : events <> []).
    { destruct before as [|ev before]; [discriminate Hevents|].
      injection Hevents as _ ->. now destruct before. }
    destruct (loop_run_ends_with_tool _ _ _ _ _ _ _ _ _ _ Hloop _ _ _ _
                Hsome Hlast) as (tool_result & -> & _ & ->).
    exists tool_result. split; [reflexivity|exact Hout].
Qed.


(** X8: when the model asks for a function and gives arguments that are
    not a string (a mapping, say), [json.loads] raises [TypeError]: the
    tool is not invoked, the run fails with that error, and the failure
    dict counts the call that was never made. *)
Theorem non_string_arguments_fail_the_run (st : State W) request model
        max_tool_calls :
  let out := process_request env self request model max_tool_calls st in
  forall before ms fs llm_response after message call arguments,
    run_events st (snd out)
    = (before ++ EvModel ms fs (Ok llm_response) :: after)%list ->
    assistant_message llm_response = Ok message ->
    get message "function_call" JNull = Ok (JObj call) ->
    truthy (JObj call) = true ->
    lookup "arguments" call = Some arguments ->
    (forall s, arguments <> JStr s) ->
    after = []
    /\ fst out
       = Some (Ok (failed_result
                     ("the JSON object must be str, bytes or bytearray, not "
                        ++ type_name arguments)
                     (count_tool_calls before + 1))).
Proof.
  intros out before ms fs llm_response after message call arguments Hsplit
         Hmessage Hcall Htruthy Harguments Hnot.
  destruct (process_request_model_event W env self st request model
              max_tool_calls before ms fs _ after Hsplit)
    as (functions & r & count' & Hout & _ & Hhandled).
  fold out in Hout. unfold reply_handled in Hhandled.
  rewrite Hmessage, Hcall, Htruthy in Hhandled.
  unfold decode_call in Hhandled. cbn [get] in Hhandled.
  unfold dict_get in Hhandled. rewrite Harguments in Hhandled.
  destruct arguments as [| | |s| |]; try (now destruct (Hnot s)).
  all: cbn [loads_or_empty] in Hhandled;
    destruct Hhandled as (-> & -> & -> & _); now split.
Qed.

(** X9: when the model asks for a function with arguments that parse as
    JSON, the next boundary call invokes the tool of the requested name
    ([None] when the request names none) with the parsed value, whatever
    its type. *)
Theorem decoded_arguments_reach_the_tool (st : State W) request model
        max_tool_calls :
  let out := process_request env self request model max_tool_calls st in
  forall before ms fs llm_response after message call s function_args,
    run_events st (snd out)
    = (before ++ EvModel ms fs (Ok llm_response) :: after)%list ->
    assistant_message llm_response = Ok message ->
    get message "function_call" JNull = Ok (JObj call) ->
    truthy (JObj call) = true ->
    get (JObj call) "arguments" (JStr "{}") = Ok (JStr s) ->
    json_loads env s = Ok function_args ->
    exists tool_result after',
      after = EvTool (dict_get call "name" JNull) function_args
                     (Ok tool_result) :: after'.
Proof.
  intros out before ms fs llm_response after message call s function_args
         Hsplit Hmessage Hcall Htruthy Hargs Hloads.
  destruct (process_request_model_event W env self st request model
              max_tool_calls before ms fs _ after Hsplit)
    as (functions & r & count' & Hout & _ & Hhandled).
  unfold reply_handled in Hhandled.
  rewrite Hmessage, Hcall, Htruthy in Hhandled.
  unfold decode_call in Hhandled. rewrite Hargs in Hhandled.
  cbn [get loads_or_empty] in Hhandled. rewrite Hloads in Hhandled.
  destruct Hhandled as (tool_result & after' & -> & _).
  now exists tool_result, after'.
Qed.


Lemma call_litellm_rejects_other_statuses (st : State W) messages model
        functions :
  forall response w,
    http_post env (litellm_base_url self ++ "/v1/chat/completions")
              [("Authorization", "Bearer " ++ litellm_api_key self);
               ("Content-Type", "application/json")]
              (request_data messages model functions) (world st)
    = (Ok response, w) ->
    status_code response <> 200 ->
    let e := mk_exn "Exception"
               ("LiteLLM request failed: "
                  ++ str_of_int (status_code response)) in
    _call_litellm env self messages model functions st
    = (Some (Raise e),
       record (EvModel messages functions (Raise e)) (with_world st w)).
Proof.
  intros response w Hpost Hstatus e.
  unfold _call_litellm, recording, try_except, bind, external, raise.
  rewrite Hpost.
  apply Z.eqb_neq in Hstatus. now rewrite Hstatus.
Qed.

(** X11: [_call_litellm] returns a document only when the post succeeded
    with status 200 and the body of the response parsed to that
    document. *)
Theorem call_litellm_returns_the_body (st : State W) messages model
        functions :
  forall llm_response st',
    _call_litellm env self messages model functions st
    = (Some (Ok llm_response), st') ->
    exists response w,
      http_post env (litellm_base_url self ++ "/v1/chat/completions")
                [("Authorization", "Bearer " ++ litellm_api_key self);
                 ("Content-Type", "application/json")]
                (request_data messages model functions) (world st)
      = (Ok response, w)
      /\ status_code response = 200
      /\ response_json response = Ok llm_response
      /\ world st' = w.
Proof.
  intros llm_response st'.
  unfold _call_litellm, recording, try_except, bind, external, raise, eval.
  destruct (http_post env _ _ _ (world st)) as [[response|e] w];
    [|discriminate].
  destruct (Z.eqb_spec (status_code response) 200) as [Hstatus|Hstatus];
    cbn [negb]; [|discriminate].
  destruct (response_json response) as [body|e] eqn:Hbody; [|discriminate].
  intros [= <- <-]. now exists response, w.
Qed.

Lemma fetch_mcp_tools_listed_state (st : State W) w1 tools w2 :
  open_session env (mcp_server_url self) (world st) = (Ok tt, w1) ->
  list_tools env w1 = (Ok tools, w2) ->
  _fetch_mcp_tools env self st
  = (Some (Ok (map convert_provider_tool tools)),
     record (EvDiscover (Ok (map convert_provider_tool tools)))
            (with_world st w2)).
Proof.
  intros Hopen Hlist.
  unfold _fetch_mcp_tools, recording, try_except, bind, external, ret.
  rewrite Hopen. cbn [world with_world]. now rewrite Hlist.
Qed.

(** X12: the first request of a run is posted to
    [<litellm_base_url>/v1/chat/completions] with the bearer token, and
    carries the model, the user message alone, and the specs of the listed
    tools; when the backend answers it with a status other than 200, the
    run fails with "LiteLLM request failed: " and the status, and zero
    tool calls, whatever the body of the response. *)
Theorem first_request_rejected (st : State W) request model max_tool_calls :
  let out := process_request env self request model max_tool_calls st in
  forall w1 tools w2 response w3,
    1 <= max_tool_calls ->
    open_session env (mcp_server_url self) (world st) = (Ok tt, w1) ->
    list_tools env w1 = (Ok tools, w2) ->
    http_post env (litellm_base_url self ++ "/v1/chat/completions")
              [("Authorization", "Bearer " ++ litellm_api_key self);
               ("Content-Type", "application/json")]
              (JObj ([("model", JStr model);
                      ("messages",
                       JArr [JObj [("role", JStr "user");
                                   ("content", JStr request)]])]
                     ++ match tools with
                        | [] => []
                        | _ :: _ =>
                            [("functions",
                              JArr (map (fun tool =>
                                           function_def
                                             (convert_provider_tool tool))
                                        tools));
                             ("function_call", JStr "auto")]
                        end)%list)
              w2
    = (Ok response, w3) ->
    status_code response <> 200 ->
    fst out
    = Some (Ok (failed_result
                  ("LiteLLM request failed: "
                     ++ str_of_int (status_code response)) 0))
    /\ world (snd out) = w3.
Proof.
  intros out w1 tools w2 response w3 Hmax Hopen Hlist Hpost Hstatus.
  subst out.
  enough (exists st',
             process_request env self request model max_tool_calls st
             = (Some (Ok (failed_result
                            ("LiteLLM request failed: "
                               ++ str_of_int (status_code response)) 0)),
                st')
             /\ world st' = w3) as (st' & -> & Hworld); [now split|].
  cbv [process_request enter_process_request bind set_messages
       set_tool_call_count try_except set_self_mcp_tools].
  set (st0 := with_tool_call_count (with_messages st []) None).
  rewrite (fetch_mcp_tools_listed_state st0 w1 tools w2 Hopen Hlist).
  destruct (Z.to_nat max_tool_calls) as [|fuel] eqn:Hfuel; [lia|].
  cbn [while_loop]. unfold bind at 1, get_tool_call_count at 1.
  cbn [tool_call_count with_tool_call_count].
  destruct (Z.ltb_spec 0 max_tool_calls) as [_|Hle]; [|lia].
  cbv [loop_body bind get_messages].
  cbn [messages with_tool_call_count with_messages].
  match goal with
  | |- context [_call_litellm env self ?ms model ?fs ?s] =>
      rewrite (call_litellm_rejects_other_statuses s ms model fs response w3)
  end.
  - eexists. split; reflexivity.
  - rewrite <- Hpost. cbn [world with_tool_call_count with_messages
                                 with_self_mcp_tools record with_world].
    f_equal. unfold request_data, user_message.
    rewrite convert_mcp_tools_to_litellm_map, map_map.
    unfold functions_argument. now destruct tools.
  - exact Hstatus.
Qed.

End RunProperties.

(** ** What a run does to [self.mcp_tools] *)
Section Catalog.

Variable W : Type.
Variable env : Collaborators W.
Variable self : Config.

Lemma keeps_ret {A} (a : A) : keeps_mcp_tools (@ret W A a).
Proof. intros st. reflexivity. Qed.

Lemma keeps_eval {A} (r : res A) : keeps_mcp_tools (@eval W A r).
Proof. intros st. reflexivity. Qed.

Lemma keeps_raise {A} (e : exn) : keeps_mcp_tools (@raise W A e).
Proof. intros st. reflexivity. Qed.

Lemma keeps_bind {A B} (m : M W A) (k : A -> M W B) :
  keeps_mcp_tools m -> (forall a, keeps_mcp_tools (k a)) ->
  keeps_mcp_tools (bind m k).
Proof.
  intros Hm Hk st. unfold bind. specialize (Hm st).
  destruct (m st) as [[[a|e]|] st1]; cbn [snd] in *; [|assumption..].
  now rewrite (Hk a st1).
Qed.

Lemma keeps_try_except {A} (body : M W A) (handler : exn -> M W A) :
  keeps_mcp_tools body -> (forall e, keeps_mcp_tools (handler e)) ->
  keeps_mcp_tools (try_except body handler).
Proof.
  intros Hbody Hhandler st. unfold try_except. specialize (Hbody st).
  destruct (body st) as [[[a|e]|] st1]; cbn [snd] in *; try assumption.
  now rewrite (Hhandler e st1).
Qed.

Lemma keeps_external {A} (f : W -> res A * W) :
  keeps_mcp_tools (external f).
Proof. intros st. unfold external. now destruct (f (world st)). Qed.

Lemma keeps_recording {A} (m : M W A) (ev : res A -> Event) :
  keeps_mcp_tools m -> keeps_mcp_tools (recording m ev).
Proof.
  intros Hm st. unfold recording. specialize (Hm st).
  now destruct (m st) as [[r|] st1].
Qed.

Lemma keeps_get_tool_call_count : keeps_mcp_tools (@get_tool_call_count W).
Proof.
  intros st. unfold get_tool_call_count. now destruct (tool_call_count st).
Qed.

Lemma keeps_call_litellm messages model functions :
  keeps_mcp_tools (_call_litellm env self messages model functions).
Proof.
  apply keeps_recording, keeps_try_except; [|intros e; apply keeps_raise].
  apply keeps_bind; [apply keeps_external|]. intros response.
  destruct (negb (status_code response =? 200));
    [apply keeps_raise|apply keeps_eval].
Qed.

Lemma keeps_execute_mcp_tool tool arguments :
  keeps_mcp_tools (_execute_mcp_tool env self tool arguments).
Proof.
  apply keeps_recording, keeps_try_except; [|intros e; apply keeps_ret].
  apply keeps_bind; [apply keeps_external|]. intros _.
  apply keeps_bind; [apply keeps_external|]. intros [|item rest];
    apply keeps_ret.
Qed.

Lemma keeps_loop_body model litellm_functions :
  keeps_mcp_tools (loop_body env self model litellm_functions).
Proof.
  apply keeps_bind; [now intros st|]. intros messages.
  apply keeps_bind; [apply keeps_call_litellm|]. intros llm_response.
  apply keeps_bind; [apply keeps_eval|]. intros message.
  apply keeps_bind; [now intros st|]. intros _.
  apply keeps_bind; [apply keeps_eval|]. intros function_call.
  destruct (negb (truthy function_call)).
  - apply keeps_bind; [|intros result; apply keeps_ret].
    apply keeps_bind; [apply keeps_eval|]. intros response.
    apply keeps_bind; [apply keeps_get_tool_call_count|]. intros count.
    apply keeps_bind; [apply keeps_eval|]. intros tokens. apply keeps_ret.
  - apply keeps_bind; [|intros _; apply keeps_ret].
    apply keeps_bind; [apply keeps_get_tool_call_count|]. intros count.
    apply keeps_bind; [now intros st|]. intros _.
    apply keeps_bind; [apply keeps_eval|]. intros function_name.
    apply keeps_bind; [apply keeps_eval|]. intros function_args_str.
    apply keeps_bind; [apply keeps_eval|]. intros function_args.
    apply keeps_bind; [apply keeps_execute_mcp_tool|]. intros tool_result.
    now intros st.
Qed.

Lemma keeps_while_loop model max_tool_calls litellm_functions fuel :
  keeps_mcp_tools
    (while_loop env self fuel model max_tool_calls litellm_functions).
Proof.
  induction fuel as [|fuel IH]; cbn [while_loop].
  all: apply keeps_bind; [apply keeps_get_tool_call_count|]; intros count.
  all: destruct (count <? max_tool_calls).
  2,4: apply keeps_bind; [apply keeps_get_tool_call_count|];
    intros made; apply keeps_bind; [now intros st|]; intros messages;
    apply keeps_bind; [apply keeps_eval|]; intros partial; apply keeps_ret.
  - now intros st.
  - apply keeps_bind; [apply keeps_loop_body|].
    intros [result|]; [apply keeps_ret|exact IH].
Qed.

(** X13: after a run, [self.mcp_tools] holds the tools fetched in this
    run, and is left as it was when the fetch raised. *)
Theorem mcp_tools_after_the_run (st : State W) request model max_tool_calls :
  let out := process_request env self request model max_tool_calls st in
  (forall mcp_tools,
      fst (_fetch_mcp_tools env self st) = Some (Ok mcp_tools) ->
      self_mcp_tools (snd out) = mcp_tools)
  /\ (forall e,
        fst (_fetch_mcp_tools env self st) = Some (Raise e) ->
        self_mcp_tools (snd out) = self_mcp_tools st).
Proof.
  intros out. subst out.
  cbv [process_request enter_process_request bind set_messages
       set_tool_call_count try_except set_self_mcp_tools on_exception].
  set (st0 := with_tool_call_count (with_messages st []) None).
  rewrite (fetch_mcp_tools_world W env self st st0 eq_refl).
  destruct (fetch_mcp_tools_spec W env self st0) as (d & w & ->).
  cbn [fst]. split.
  - intros mcp_tools [= ->].
    match goal with
    | |- context [while_loop _ _ _ _ _ _ ?s] =>
        pose proof (keeps_while_loop model max_tool_calls
                      (_convert_mcp_tools_to_litellm mcp_tools)
                      (Z.to_nat max_tool_calls) s) as Hkeeps;
        destruct (while_loop env self (Z.to_nat max_tool_calls) model
                    max_tool_calls
                    (_convert_mcp_tools_to_litellm mcp_tools) s)
          as [[[result|e]|] st']
    end; exact Hkeeps.
  - intros e [= ->]. reflexivity.
Qed.

End Catalog.

(** ** The constructor *)

(** X14: an argument that is a non-empty string becomes the field, whatever
    the environment holds; an argument that is [None] or the empty string
    gives way to the environment variable when that is set, also when it is
    set to the empty string, and to the built-in default otherwise; the
    agent starts without tools. *)
Theorem init_configuration (environ : string -> option string)
        (url base key : option string) :
  let self := fst (__init__ environ url base key) in
  let from_environment name default :=
    match environ name with
    | Some value => value
    | None => default
    end in
  (forall value, url = Some value -> value <> "" ->
                 mcp_server_url self = value)
  /\ (url = None \/ url = Some "" ->
      mcp_server_url self
      = from_environment "MCP_SERVER_URL" "http://localhost:8001/mcp")
  /\ (forall value, base = Some value -> value <> "" ->
                    litellm_base_url self = value)
  /\ (base = None \/ base = Some "" ->
      litellm_base_url self
      = from_environment "LITELLM_BASE_URL" "http://localhost:4000")
  /\ (forall value, key = Some value -> value <> "" ->
                    litellm_api_key self = value)
  /\ (key = None \/ key = Some "" ->
      litellm_api_key self = from_environment "LITELLM_API_KEY" "sk-1234")
  /\ snd (__init__ environ url base key) = [].
Proof.
  cbv zeta. unfold __init__, or_else, getenv. cbn [fst snd mcp_server_url
    litellm_base_url litellm_api_key].
  repeat match goal with
         | |- _ /\ _ => split
         end.
  1,3,5: intros value -> Hvalue; apply String.eqb_neq in Hvalue;
    now rewrite Hvalue.
  1-3: now intros [->| ->].
  reflexivity.
Qed.

(** An empty URL argument is ignored and an empty variable is used. *)
Lemma init_configuration_empty_strings :
  mcp_server_url
    (fst (__init__ (fun name =>
                      if String.eqb name "MCP_SERVER_URL" then Some ""
                      else None)
                   (Some "") (Some "http://litellm:4000") None))
  = ""
  /\ litellm_base_url
       (fst (__init__ (fun name =>
                         if String.eqb name "MCP_SERVER_URL" then Some ""
                         else None)
                      (Some "") (Some "http://litellm:4000") None))
     = "http://litellm:4000".
Proof.
  destruct (init_configuration
              (fun name =>
                 if String.eqb name "MCP_SERVER_URL" then Some "" else None)
              (Some "") (Some "http://litellm:4000") None)
    as (_ & Hurl & Hbase & _).
  split.
  - exact (Hurl (or_intror eq_refl)).
  - exact (Hbase "http://litellm:4000" eq_refl ltac:(discriminate)).
Defined.

(** ** The command line *)
Section CommandLineFacts.

Variable W : Type.
Variable env : Collaborators W.
Variable console : Console W.

Lemma process_request_returns (self : Config) (st : State W) request model
      max_tool_calls :
  exists result st',
    process_request env self request model max_tool_calls st
    = (Some (Ok result), st').
Proof.
  destruct (process_request_spec W env self model max_tool_calls st request)
    as (result & st' & events & Hrun & _).
  now exists result, st'.
Qed.

(** The dict [process_request] returns has one of three shapes. *)
Lemma loop_run_result_shape functions max_tool_calls count messages events r
      count' messages' :
  loop_run env functions max_tool_calls count messages events r count'
           messages' ->
  (exists response tokens,
      finish r count' = success_result response count' tokens)
  \/ (exists partial,
         finish r count' = exhausted_result max_tool_calls count' partial)
  \/ exists error, finish r count' = failed_result error count'.
Proof.
  induction 1 as [count messages Hmax
                 |count messages e Hlt
                 |count messages llm e Hlt Hmsg
                 |count messages llm message e Hlt Hmsg Hcall
                 |count messages llm message fc Hlt Hmsg Hcall Htruthy
                 |count messages llm message fc e Hlt Hmsg Hcall Htruthy Hdec
                 |count messages llm message fc fname fargs v events r count'
                    messages' Hlt Hmsg Hcall Htruthy Hdec Hrun IH];
    try (right; right; eexists; reflexivity); try assumption.
  - destruct (partial_response messages) as [partial|e]; cbn [finish].
    + right. left. now exists partial.
    + right. right. now eexists.
  - unfold final_value.
    destruct (get message "content" (JStr "")) as [response|e];
      [destruct (total_tokens llm) as [tokens|e]|]; cbn [finish].
    + left. now exists response, tokens.
    + right. right. now eexists.
    + right. right. now eexists.
Qed.

Lemma process_request_result_shape (self : Config) (st : State W) request
      model max_tool_calls result st' :
  process_request env self request model max_tool_calls st
  = (Some (Ok result), st') ->
  exists count,
    (exists response tokens,
        result = success_result response count tokens)
    \/ (exists partial,
           result = exhausted_result max_tool_calls count partial)
    \/ exists error, result = failed_result error count.
Proof.
  intros Hrun.
  destruct (process_request_run W env self st request model max_tool_calls)
    as (result' & Hout & Hrequest & _).
  rewrite Hrun in Hout, Hrequest. cbn [fst snd] in Hout, Hrequest.
  injection Hout as <-.
  destruct Hrequest as [e|mcp_tools events r count' messages' Hloop].
  - exists 0. right. right. now eexists.
  - exists count'. now apply loop_run_result_shape in Hloop.
Qed.

(** On a dict of one of these shapes the display prints and returns. *)
Lemma display_result_returns (self : Config) (st : State W) request model
      max_tool_calls result st' (t : Terminal W) :
  process_request env self request model max_tool_calls st
  = (Some (Ok result), st') ->
  exists lines,
    display_result console result t
    = (Some (Ok tt), mkTerminal (agent_state t) (stdout t ++ lines)).
Proof.
  intros Hrun.
  destruct (process_request_result_shape self st request model max_tool_calls
              result st' Hrun)
    as (count & [(response & tokens & ->)|[(partial & ->)|(error & ->)]]).
  - unfold display_result, success_result, cbind, ceval, print, cret.
    cbn [get dict_get lookup String.eqb Ascii.eqb Bool.eqb truthy negb
         greater_than_zero agent_state stdout].
    destruct (0 <? count); destruct (truthy tokens);
      cbn [agent_state stdout]; eexists; rewrite <- ?app_assoc; reflexivity.
  - now eexists.
  - now eexists.
Qed.

(** X15: on a dict that [process_request] returned, the display of
    interactive mode does nothing but print: its lookups and its comparison
    do not raise, and it is the printing, in this order, of the error line
    alone for a failure (not the partial response), and for a success of
    the response line, then the number of tools used when that is
    positive, then the tokens when the reply gave a count that is true. *)
Theorem display_of_a_result (self : Config) (st : State W) request model
        max_tool_calls result st' :
  process_request env self request model max_tool_calls st
  = (Some (Ok result), st') ->
  exists lines,
    (forall t : Terminal W,
        display_result console result t = print_lines lines t)
    /\ (forall error, get result "success" JNull = Ok (JBool false) ->
                      get result "error" JNull = Ok (JStr error) ->
                      lines = ["❌ Error: " ++ error])
    /\ (forall response count tokens,
           result = success_result response count tokens ->
           lines
           = [("🤖 Response: " ++ str console response)%string]
               ++ (if 0 <? count
                   then [(nl ++ "🔧 Tools used: " ++ str_of_int count)%string]
                   else [])
               ++ (if truthy tokens
                   then [(nl ++ "📊 Tokens used: "
                             ++ str console tokens)%string]
                   else []))%list.
Proof.
  intros Hrun.
  destruct (process_request_result_shape self st request model max_tool_calls
              result st' Hrun)
    as (count & [(response & tokens & ->)|[(partial & ->)|(error & ->)]]).
  - exists ([("🤖 Response: " ++ str console response)%string]
              ++ (if 0 <? count
                  then [(nl ++ "🔧 Tools used: " ++ str_of_int count)%string]
                  else [])
              ++ (if truthy tokens
                  then [(nl ++ "📊 Tokens used: "
                            ++ str console tokens)%string]
                  else []))%list.
    split; [|split].
    + intros t.
      unfold display_result, success_result, cbind, ceval, print, cret.
      cbn [get dict_get lookup String.eqb Ascii.eqb Bool.eqb truthy negb
           greater_than_zero agent_state stdout].
      destruct (0 <? count); destruct (truthy tokens);
        cbn [app print_lines]; unfold cbind, print, cret;
        cbn [agent_state stdout]; try reflexivity; now destruct t.
    + intros error [=].
    + now intros response' count' tokens' [= <- <- <-].
  - exists ["❌ Error: " ++ max_calls_error max_tool_calls].
    split; [reflexivity|]. split.
    + now intros error _ [= <-].
    + intros response' count' tokens' [=].
  - exists ["❌ Error: " ++ error].
    split; [reflexivity|]. split.
    + now intros error' _ [= <-].
    + intros response' count' tokens' [=].
Qed.

Lemma input_stripped_spec prompt (t : Terminal W) :
  input_stripped console prompt t
  = let (r, w) := input console prompt (world (agent_state t)) in
    (Some match r with
          | Ok line => Ok (strip console line)
          | Raise e => Raise e
          end,
     mkTerminal (with_world (agent_state t) w) (stdout t)).
Proof.
  unfold input_stripped, cbind, on_agent, external, cret.
  now destruct (input console prompt (world (agent_state t))) as [[line|e] w].
Qed.

Lemma print_tools_spec tools (t : Terminal W) :
  print_tools tools t
  = (Some (Ok tt),
     mkTerminal (agent_state t)
       (stdout t
          ++ map (fun tool =>
                    "  • " ++ name tool ++ ": " ++ description tool)
                 tools)).
Proof.
  revert t. induction tools as [|tool rest IH]; intros t; cbn [print_tools map].
  - unfold cret. rewrite app_nil_r. now destruct t.
  - unfold cbind, print. rewrite IH. cbn [agent_state stdout].
    now rewrite <- app_assoc.
Qed.

(** The [tools] command makes one boundary call, the discovery, prints,
    and does not raise. *)
Lemma tools_command_spec (t : Terminal W) :
  exists outcome w lines,
    tools_command env console t
    = (Some (Ok tt),
       mkTerminal (record (EvDiscover outcome) (with_world (agent_state t) w))
                  (stdout t ++ lines)).
Proof.
  unfold tools_command, cbind, ctry, on_agent, print.
  cbn [agent_state stdout].
  destruct (fetch_mcp_tools_spec W env (agent_config console) (agent_state t))
    as (outcome & w & ->).
  destruct outcome as [tools|e]; cbn [agent_state stdout].
  - rewrite print_tools_spec. cbn [agent_state stdout].
    exists (Ok tools), w. eexists. rewrite <- !app_assoc. reflexivity.
  - exists (Raise e), w. eexists. rewrite <- !app_assoc. reflexivity.
Qed.

Lemma models_command_spec (t : Terminal W) :
  exists lines,
    models_command t
    = (Some (Ok tt), mkTerminal (agent_state t) (stdout t ++ lines)).
Proof.
  unfold models_command, cbind, print. cbn [agent_state stdout].
  eexists. rewrite <- !app_assoc. reflexivity.
Qed.

(** What a request typed at the prompt does, once the model name has been
    read: the run of [process_request] with the default budget, and the
    display of its result. *)
Lemma request_pass_spec prompt model (t : Terminal W) :
  exists result st' lines,
    process_request env (agent_config console) prompt model
      default_max_tool_calls (agent_state t) = (Some (Ok result), st')
    /\ display_result console result
         (mkTerminal st'
            (stdout t
               ++ [nl ++ "Processing with " ++ model ++ "..."; times "-" 40]))
       = (Some (Ok tt),
          mkTerminal st'
            (stdout t
               ++ [nl ++ "Processing with " ++ model ++ "..."; times "-" 40]
               ++ lines))
    /\ ((print (nl ++ "Processing with " ++ model ++ "...") ;;-
         print (times "-" 40) ;;-
         result <-- on_agent (process_request env (agent_config console)
                                prompt model default_max_tool_calls) ;;
         display_result console result ;;-
         cret Continue)%cli) t
       = (Some (Ok Continue),
          mkTerminal st'
            (stdout t
               ++ [nl ++ "Processing with " ++ model ++ "..."; times "-" 40]
               ++ lines)).
Proof.
  destruct (process_request_returns (agent_config console) (agent_state t)
              prompt model default_max_tool_calls) as (result & st' & Hrun).
  destruct (display_result_returns _ _ _ _ _ _ _
              (mkTerminal st'
                 (stdout t ++ [nl ++ "Processing with " ++ model ++ "...";
                               times "-" 40]))
              Hrun)
    as (lines & Hshow).
  exists result, st', lines. split; [exact Hrun|].
  cbn [agent_state stdout] in Hshow. rewrite <- app_assoc in Hshow.
  split; [exact Hshow|].
  unfold cbind at 1 2 3. unfold print at 1 2, on_agent.
  cbn [agent_state stdout]. rewrite Hrun.
  unfold cbind, cret. rewrite <- !app_assoc. cbn [app].
  now rewrite Hshow.
Qed.

(** One pass of the loop, case by case on what is typed. *)
Lemma interactive_pass_spec (t : Terminal W) :
  match input console (nl ++ "Enter your request: ") (world (agent_state t))
  with
  | (Raise e, w) =>
      interactive_pass env console t
      = (Some (Ok Continue),
         mkTerminal (with_world (agent_state t) w)
                    (stdout t ++ [nl ++ "❌ Unexpected error: " ++ exn_str e]))
  | (Ok line, w) =>
      let prompt := strip console line in
      let command := lower console prompt in
      if String.eqb command "quit" || String.eqb command "exit"
         || String.eqb command "q"
      then interactive_pass env console t
           = (Some (Ok Break),
              mkTerminal (with_world (agent_state t) w) (stdout t))
      else if String.eqb command "tools"
      then exists outcome w' lines,
          interactive_pass env console t
          = (Some (Ok Continue),
             mkTerminal (record (EvDiscover outcome)
                                (with_world (agent_state t) w'))
                        (stdout t ++ lines))
      else if String.eqb command "models"
      then exists lines,
          interactive_pass env console t
          = (Some (Ok Continue),
             mkTerminal (with_world (agent_state t) w) (stdout t ++ lines))
      else if String.eqb prompt ""
      then interactive_pass env console t
           = (Some (Ok Continue),
              mkTerminal (with_world (agent_state t) w) (stdout t))
      else
        match input console "Model (press Enter for gpt-3.5-turbo): " w with
        | (Raise e, w2) =>
            interactive_pass env console t
            = (Some (Ok Continue),
               mkTerminal (with_world (agent_state t) w2)
                 (stdout t ++ [nl ++ "❌ Unexpected error: " ++ exn_str e]))
        | (Ok answer, w2) =>
            let typed := strip console answer in
            let model := if String.eqb typed "" then "gpt-3.5-turbo"
                         else typed in
            exists result st' lines,
              process_request env (agent_config console) prompt model
                default_max_tool_calls (with_world (agent_state t) w2)
              = (Some (Ok result), st')
              /\ display_result console result
                   (mkTerminal st'
                      (stdout t
                         ++ [nl ++ "Processing with " ++ model ++ "...";
                             times "-" 40]))
                 = (Some (Ok tt),
                    mkTerminal st'
                      (stdout t
                         ++ [nl ++ "Processing with " ++ model ++ "...";
                             times "-" 40]
                         ++ lines))
              /\ interactive_pass env console t
                 = (Some (Ok Continue),
                    mkTerminal st'
                      (stdout t
                         ++ [nl ++ "Processing with " ++ model ++ "...";
                             times "-" 40]
                         ++ lines))
        end
  end.
Proof.
  remember (interactive_pass env console t) as pass eqn:Hpass.
  unfold interactive_pass, ctry, interactive_body in Hpass.
  unfold cbind at 1 in Hpass. rewrite input_stripped_spec in Hpass.
  revert Hpass.
  destruct (input console (nl ++ "Enter your request: ")
              (world (agent_state t))) as [[line|e] w];
    cbv beta iota zeta; [|intros ->; reflexivity].
  destruct (String.eqb (lower console (strip console line)) "quit"
            || String.eqb (lower console (strip console line)) "exit"
            || String.eqb (lower console (strip console line)) "q");
    cbv beta iota; [intros ->; reflexivity|].
  destruct (String.eqb (lower console (strip console line)) "tools");
    cbv beta iota.
  { unfold cbind at 1.
    destruct (tools_command_spec
                (mkTerminal (with_world (agent_state t) w) (stdout t)))
      as (outcome & w' & lines & ->).
    intros ->. exists outcome, w', lines. reflexivity. }
  destruct (String.eqb (lower console (strip console line)) "models");
    cbv beta iota.
  { unfold cbind at 1.
    destruct (models_command_spec
                (mkTerminal (with_world (agent_state t) w) (stdout t)))
      as (lines & ->).
    intros ->. exists lines. reflexivity. }
  destruct (String.eqb (strip console line) ""); cbv beta iota;
    [intros ->; reflexivity|].
  unfold cbind at 1. rewrite input_stripped_spec.
  cbn [agent_state stdout world with_world].
  destruct (input console "Model (press Enter for gpt-3.5-turbo): " w)
    as [[answer|e] w2];
    cbv beta iota zeta; [|intros ->; reflexivity].
  set (model := if String.eqb (strip console answer) "" then "gpt-3.5-turbo"
                else strip console answer).
  destruct (request_pass_spec (strip console line) model
              (mkTerminal (with_world (agent_state t) w2) (stdout t)))
    as (result & st' & lines & Hrun & Hshow & Hpass).
  cbn [agent_state stdout] in Hrun, Hshow, Hpass.
  intros ->. exists result, st', lines.
  split; [exact Hrun|]. split; [exact Hshow|].
  replace (with_world (with_world (agent_state t) w) w2)
    with (with_world (agent_state t) w2) by reflexivity.
  now rewrite Hpass.
Qed.

(** A pass ends, does not raise, and only adds to what is printed. *)
Lemma interactive_pass_prints (t : Terminal W) :
  exists flow t' lines,
    interactive_pass env console t = (Some (Ok flow), t')
    /\ stdout t' = (stdout t ++ lines)%list.
Proof.
  pose proof (interactive_pass_spec t) as Hspec.
  destruct (input console (nl ++ "Enter your request: ")
              (world (agent_state t))) as [[line|e] w];
    [|now eexists; eexists; eexists; split; [exact Hspec|]].
  cbv zeta in Hspec.
  destruct (String.eqb (lower console (strip console line)) "quit"
            || String.eqb (lower console (strip console line)) "exit"
            || String.eqb (lower console (strip console line)) "q").
  { exists Break. eexists. exists []. split; [exact Hspec|].
    cbn [stdout]. now rewrite app_nil_r. }
  destruct (String.eqb (lower console (strip console line)) "tools").
  { destruct Hspec as (outcome & w' & lines & Hspec).
    now eexists; eexists; eexists; split; [exact Hspec|]. }
  destruct (String.eqb (lower console (strip console line)) "models").
  { destruct Hspec as (lines & Hspec).
    now eexists; eexists; eexists; split; [exact Hspec|]. }
  destruct (String.eqb (strip console line) "").
  { exists Continue. eexists. exists []. split; [exact Hspec|].
    cbn [stdout]. now rewrite app_nil_r. }
  destruct (input console "Model (press Enter for gpt-3.5-turbo): " w)
    as [[answer|e] w2];
    [|now eexists; eexists; eexists; split; [exact Hspec|]].
  destruct Hspec as (result & st' & lines & _ & _ & Hspec).
  now eexists; eexists; eexists; split; [exact Hspec|].
Qed.

(** X16: a pass of the interactive loop always ends and never raises,
    whatever the terminal, the tool provider and the model backend do; it
    leaves the loop exactly when a line was read whose stripped, lowered
    text is [quit], [exit] or [q]. *)
Theorem a_pass_always_ends (t : Terminal W) :
  exists flow t',
    interactive_pass env console t = (Some (Ok flow), t')
    /\ (flow = Break <->
        exists line w,
          input console (nl ++ "Enter your request: ")
                (world (agent_state t)) = (Ok line, w)
          /\ String.eqb (lower console (strip console line)) "quit"
             || String.eqb (lower console (strip console line)) "exit"
             || String.eqb (lower console (strip console line)) "q" = true).
Proof.
  pose proof (interactive_pass_spec t) as Hspec.
  destruct (input console (nl ++ "Enter your request: ")
              (world (agent_state t))) as [[line|e] w].
  2: { exists Continue. eexists. split; [exact Hspec|].
       split; [discriminate|]. now intros (line & w' & [=] & _). }
  cbv zeta in Hspec.
  destruct (String.eqb (lower console (strip console line)) "quit"
            || String.eqb (lower console (strip console line)) "exit"
            || String.eqb (lower console (strip console line)) "q")
    eqn:Hquit.
  { exists Break. eexists. split; [exact Hspec|].
    split; [|reflexivity]. intros _. now exists line, w. }
  assert (Hcontinue :
            exists t', interactive_pass env console t
                       = (Some (Ok Continue), t')).
  { destruct (String.eqb (lower console (strip console line)) "tools");
      [destruct Hspec as (outcome & w' & lines & Hspec); eexists; exact Hspec|].
    destruct (String.eqb (lower console (strip console line)) "models");
      [destruct Hspec as (lines & Hspec); eexists; exact Hspec|].
    destruct (String.eqb (strip console line) ""); [eexists; exact Hspec|].
    destruct (input console "Model (press Enter for gpt-3.5-turbo): " w)
      as [[answer|e] w2]; [|eexists; exact Hspec].
    destruct Hspec as (result & st' & lines & _ & _ & Hspec). eexists; exact Hspec. }
  destruct Hcontinue as (t' & Hpass).
  exists Continue, t'. split; [exact Hpass|].
  split; [discriminate|].
  intros (line' & w' & [= <- <-] & Htrue). congruence.
Qed.

(** X17: a pass whose line is the [tools] command, the [models] command
    or blank ends without a call of the model and without a tool
    invocation: the only boundary call it can make is one discovery. *)
Theorem commands_make_no_model_call (t : Terminal W) line w :
  input console (nl ++ "Enter your request: ") (world (agent_state t))
  = (Ok line, w) ->
  lower console (strip console line) = "tools"
  \/ lower console (strip console line) = "models"
  \/ strip console line = "" ->
  exists flow t' events,
    interactive_pass env console t = (Some (Ok flow), t')
    /\ trace (agent_state t') = (trace (agent_state t) ++ events)%list
    /\ (List.length events <= 1)%nat
    /\ forallb is_discovery events = true.
Proof.
  intros Hline Hcommand.
  pose proof (interactive_pass_spec t) as Hspec.
  rewrite Hline in Hspec. cbv zeta in Hspec.
  destruct (String.eqb (lower console (strip console line)) "quit"
            || String.eqb (lower console (strip console line)) "exit"
            || String.eqb (lower console (strip console line)) "q").
  { exists Break. eexists. exists []. split; [exact Hspec|].
    cbn [agent_state with_world trace]. rewrite app_nil_r.
    repeat split. cbn. lia. }
  destruct (String.eqb (lower console (strip console line)) "tools") eqn:Htools.
  { destruct Hspec as (outcome & w' & lines & Hspec).
    exists Continue. eexists. exists [EvDiscover outcome].
    split; [exact Hspec|]. repeat split. cbn. lia. }
  destruct (String.eqb (lower console (strip console line)) "models")
    eqn:Hmodels.
  { destruct Hspec as (lines & Hspec).
    exists Continue. eexists. exists []. split; [exact Hspec|].
    cbn [agent_state with_world trace]. rewrite app_nil_r.
    repeat split. cbn. lia. }
  destruct (String.eqb (strip console line) "") eqn:Hblank.
  { exists Continue. eexists. exists []. split; [exact Hspec|].
    cbn [agent_state with_world trace]. rewrite app_nil_r.
    repeat split. cbn. lia. }
  exfalso. destruct Hcommand as [H|[H|H]]; rewrite H in *;
    cbn in Htools, Hmodels, Hblank; discriminate.
Qed.

(** X18: a line that is neither a command nor blank is a request: the
    pass asks for a model, takes [gpt-3.5-turbo] when the answer is blank,
    prints the two progress lines, and runs [process_request] with the
    text typed, that model and the default budget of 5 tool calls; the
    agent is left as that run leaves it, what is printed after the
    progress lines is the pass's own, and the pass never leaves the
    loop. *)
Theorem a_request_is_processed (t : Terminal W) line w answer w2 :
  let prompt := strip console line in
  let command := lower console prompt in
  let typed := strip console answer in
  let model := if String.eqb typed "" then "gpt-3.5-turbo" else typed in
  input console (nl ++ "Enter your request: ") (world (agent_state t))
  = (Ok line, w) ->
  String.eqb command "quit" || String.eqb command "exit"
  || String.eqb command "q" = false ->
  command <> "tools" ->
  command <> "models" ->
  prompt <> "" ->
  input console "Model (press Enter for gpt-3.5-turbo): " w
  = (Ok answer, w2) ->
  exists result st' lines,
    process_request env (agent_config console) prompt model 5
      (with_world (agent_state t) w2)
    = (Some (Ok result), st')
    /\ interactive_pass env console t
       = (Some (Ok Continue),
          mkTerminal st'
            (stdout t
               ++ [nl ++ "Processing with " ++ model ++ "..."; times "-" 40]
               ++ lines)).
Proof.
  intros prompt command typed model Hline Hquit Htools Hmodels Hblank
         Hanswer.
  pose proof (interactive_pass_spec t) as Hspec.
  rewrite Hline in Hspec. cbv zeta in Hspec.
  fold prompt in Hspec. fold command in Hspec.
  rewrite Hquit in Hspec.
  apply String.eqb_neq in Htools, Hmodels, Hblank.
  rewrite Htools, Hmodels, Hblank, Hanswer in Hspec.
  destruct Hspec as (result & st' & lines & Hrun & _ & Hpass).
  now exists result, st', lines.
Qed.

(** The loop only adds to what is printed, and does not raise. *)
Lemma interactive_loop_prints fuel :
  forall (t : Terminal W) r t',
    interactive_loop env console fuel t = (Some r, t') ->
    r = Ok tt /\ exists lines, stdout t' = (stdout t ++ lines)%list.
Proof.
  induction fuel as [|fuel IH]; intros t r t'; cbn [interactive_loop];
    [discriminate|].
  unfold cbind at 1.
  destruct (interactive_pass_prints t) as (flow & t1 & lines & -> & Hlines).
  destruct flow.
  - intros Hloop. apply IH in Hloop as (-> & lines' & Hlines').
    split; [reflexivity|]. exists (lines ++ lines')%list.
    now rewrite Hlines', Hlines, app_assoc.
  - unfold cret. intros [= <- <-]. split; [reflexivity|]. now exists lines.
Qed.

(** X19: interactive mode does not raise, and a session that ends has
    printed the banner first and the farewell last. *)
Theorem session_output_is_framed fuel (t : Terminal W) r t' :
  interactive_mode env console fuel t = (Some r, t') ->
  r = Ok tt
  /\ exists lines,
      stdout t'
      = (stdout t
           ++ [(nl ++ times "=" 60)%string;
               "LiteLLM MCP Agent - Interactive Mode";
               times "=" 60;
               "Type 'quit', 'exit', or 'q' to exit";
               "Type 'tools' to list available MCP tools";
               "Type 'models' to see example supported models";
               times "-" 60]
           ++ lines
           ++ [(nl ++ "Goodbye! 👋")%string])%list.
Proof.
  unfold interactive_mode, cfinally. unfold cbind at 1. unfold new_agent.
  unfold cbind at 1 2 3 4 5 6 7. unfold print at 1 2 3 4 5 6 7.
  cbn [agent_state stdout].
  match goal with
  | |- context [interactive_loop env console fuel ?t1] =>
      destruct (interactive_loop env console fuel t1) as [[r1|] t2] eqn:Hloop
  end; [|discriminate].
  apply interactive_loop_prints in Hloop as (-> & lines & Hlines).
  unfold print. cbn [agent_state stdout]. intros [= <- <-].
  split; [reflexivity|]. exists lines. cbn [stdout] in *.
  rewrite Hlines. rewrite <- !app_assoc. reflexivity.
Qed.

(** X20: when the first line typed is [quit], [exit] or [q], the session
    ends: it has printed the banner and the farewell and nothing else, and
    has called neither the tool provider nor the model. *)
Theorem quit_ends_the_session fuel (t : Terminal W) line w :
  input console (nl ++ "Enter your request: ") (world (agent_state t))
  = (Ok line, w) ->
  String.eqb (lower console (strip console line)) "quit"
  || String.eqb (lower console (strip console line)) "exit"
  || String.eqb (lower console (strip console line)) "q" = true ->
  exists t',
    interactive_mode env console (S fuel) t = (Some (Ok tt), t')
    /\ stdout t'
       = (stdout t
            ++ [(nl ++ times "=" 60)%string;
                "LiteLLM MCP Agent - Interactive Mode";
                times "=" 60;
                "Type 'quit', 'exit', or 'q' to exit";
                "Type 'tools' to list available MCP tools";
                "Type 'models' to see example supported models";
                times "-" 60;
                (nl ++ "Goodbye! 👋")%string])%list
    /\ trace (agent_state t') = trace (agent_state t)
    /\ world (agent_state t') = w.
Proof.
  intros Hline Hquit.
  unfold interactive_mode, cfinally. unfold cbind at 1. unfold new_agent.
  unfold cbind at 1 2 3 4 5 6 7. unfold print at 1 2 3 4 5 6 7.
  cbn [agent_state stdout interactive_loop]. unfold cbind at 1.
  match goal with
  | |- context [interactive_pass env console ?t1] =>
      pose proof (interactive_pass_spec t1) as Hspec
  end.
  cbn [agent_state stdout world with_self_mcp_tools] in Hspec.
  rewrite Hline in Hspec. cbv zeta in Hspec. rewrite Hquit in Hspec.
  rewrite Hspec. unfold cret, print. cbn [agent_state stdout].
  eexists. split; [reflexivity|]. cbn [agent_state stdout].
  split; [now rewrite <- !app_assoc|]. split; reflexivity.
Qed.

(** With an input that raises at every call the loop takes every pass it
    is given. *)
Lemma interactive_loop_on_closed_input :
  (forall prompt w, exists e w', input console prompt w = (Raise e, w')) ->
  forall fuel (t : Terminal W),
    fst (interactive_loop env console fuel t) = None.
Proof.
  intros Hclosed fuel. induction fuel as [|fuel IH]; intros t;
    cbn [interactive_loop]; [reflexivity|].
  unfold cbind at 1.
  pose proof (interactive_pass_spec t) as Hspec.
  destruct (Hclosed (nl ++ "Enter your request: ") (world (agent_state t)))
    as (e & w' & Hline).
  rewrite Hline in Hspec. rewrite Hspec. apply IH.
Qed.

(** X21: when every [input] raises an exception, as at the end of the
    standard input, the session does not end: the handler of the loop
    prints the error and the loop goes on, for any number of passes. *)
Theorem closed_input_never_ends (t : Terminal W) :
  (forall prompt w, exists e w', input console prompt w = (Raise e, w')) ->
  forall fuel, fst (interactive_mode env console fuel t) = None.
Proof.
  intros Hclosed fuel.
  unfold interactive_mode, cfinally. unfold cbind at 1. unfold new_agent.
  unfold cbind at 1 2 3 4 5 6 7. unfold print at 1 2 3 4 5 6 7.
  cbn [agent_state stdout].
  match goal with
  | |- context [interactive_loop env console fuel ?t1] =>
      pose proof (interactive_loop_on_closed_input Hclosed fuel t1) as Hloop;
      destruct (interactive_loop env console fuel t1) as [[r1|] t2]
  end; [discriminate|reflexivity].
Qed.

(** X22: with a prompt on the command line, [main] runs one request on a
    new agent, whose configuration is that of the environment whatever
    [--mcp-url] says, with the default budget; it prints the result as
    JSON, after the note when [--mcp-url] is not the default, and it does
    not raise. *)
Theorem main_single_request fuel args prompt (t : Terminal W) :
  args_prompt args = Some prompt ->
  prompt <> "" ->
  exists result st',
    process_request env (agent_config console) prompt (args_model args) 5
      (with_self_mcp_tools (agent_state t) [])
    = (Some (Ok result), st')
    /\ main env console fuel args t
       = (Some (Ok tt),
          mkTerminal st'
            (stdout t
               ++ (if String.eqb (args_mcp_url args)
                                 "http://localhost:8001/mcp"
                   then []
                   else ["Note: Custom MCP URL not yet supported in CLI. Using default."])
               ++ [dumps_indent console result])%list).
Proof.
  intros Hprompt Hfilled. apply String.eqb_neq in Hfilled.
  destruct (process_request_returns (agent_config console)
              (with_self_mcp_tools (agent_state t) []) prompt
              (args_model args) 5) as (result & st' & Hrun).
  exists result, st'. split; [exact Hrun|].
  unfold main. rewrite Hprompt, Hfilled. cbn [negb].
  unfold single_request_mode, new_agent, ctry.
  unfold cbind, on_agent, print, cret.
  destruct (String.eqb (args_mcp_url args) "http://localhost:8001/mcp");
    cbn [negb agent_state stdout snd __init__];
    change default_max_tool_calls with 5; rewrite Hrun;
    cbn [agent_state stdout]; rewrite <- ?app_assoc; try rewrite app_nil_r;
    reflexivity.
Qed.

(** X23: [process_request] always returns, and returns a dict: it does not
    raise, whatever the tool provider and the model backend do, and the
    loop ends for every [max_tool_calls].  The dict has a number under
    [tool_calls_made]; it is the success dict, or it has [success] false
    and the text of an error. *)
Theorem process_request_always_answers (self : Config) (st : State W)
        request model max_tool_calls :
  exists result st' count,
    process_request env self request model max_tool_calls st
    = (Some (Ok result), st')
    /\ get result "tool_calls_made" JNull = Ok (JNum count)
    /\ ((exists response tokens,
            result = success_result response count tokens)
        \/ (exists error,
               get result "success" JNull = Ok (JBool false)
               /\ get result "error" JNull = Ok (JStr error))).
Proof.
  destruct (process_request_returns self st request model max_tool_calls)
    as (result & st' & Hrun).
  destruct (process_request_result_shape self st request model max_tool_calls
              result st' Hrun)
    as (count & [(response & tokens & ->)|[(partial & ->)|(error & ->)]]);
    eexists; exists st', count; (split; [exact Hrun|]);
    (split; [reflexivity|]).
  - left. now exists response, tokens.
  - right. now exists (max_calls_error max_tool_calls).
  - right. now exists error.
Qed.

End CommandLineFacts.

(** ** More runs of the scripted conversations *)

(** Scenario E: every model call is offered the weather tool. *)
Lemma listed_tools_are_offered_scenario_e :
  list_tools env scenario_e = (Ok [weather_tool], scenario_e)
  /\ forall ms fs reply,
      In (EvModel ms fs reply)
         (run_events (start scenario_e) (snd (run scenario_e "weather?" 5))) ->
      fs = Some [function_def weather].
Proof.
  split; [reflexivity|].
  exact (listed_tools_are_offered Script env self (start scenario_e)
           "weather?" gpt 5 scenario_e [weather_tool] scenario_e
           eq_refl eq_refl).
Defined.

(** Scenario B: the second model call gets two messages more. *)
Lemma conversation_only_grows_scenario_b :
  exists ms1 ms2 added,
    nth_error (run_events (start scenario_b)
                 (snd (run scenario_b "weather?" 5))) 1
    = Some (EvModel ms1 (Some [function_def weather])
                    (Ok (function_call_turn "weather" location_SF)))
    /\ nth_error (run_events (start scenario_b)
                    (snd (run scenario_b "weather?" 5))) 3
       = Some (EvModel ms2 (Some [function_def weather])
                       (Ok (final_answer "It's sunny in SF.")))
    /\ ms2 = (ms1 ++ added)%list
    /\ List.length added = 2%nat.
Proof.
  pose (ms1 := [user_message "weather?"]).
  pose (tool_result := JObj [("result", JStr "Sunny, 65F")]).
  pose (ms2 := (ms1 ++ [JObj [("role", JStr "assistant"); ("content", JNull);
                              ("function_call",
                               JObj [("name", JStr "weather");
                                     ("arguments", JStr location_SF)])];
                        function_message env (JStr "weather") tool_result])%list).
  destruct (conversation_only_grows Script env self (start scenario_b)
              "weather?" gpt 5) as (_ & Hlater).
  destruct (Hlater
              [EvDiscover (Ok [weather])] ms1 (Some [function_def weather])
              (Ok (function_call_turn "weather" location_SF))
              [EvTool (JStr "weather") (JObj [("location", JStr "SF")])
                      (Ok tool_result)]
              ms2 (Some [function_def weather])
              (Ok (final_answer "It's sunny in SF.")) [])
    as (added & Hadded & Hlength).
  - vm_compute; reflexivity.
  - exists ms1, ms2, added.
    split; [vm_compute; reflexivity|]. split; [vm_compute; reflexivity|].
    split; [exact Hadded|].
    cbn [count_tool_calls] in Hlength. lia.
Defined.

(** Scenario A with no budget: the model is not called. *)
Lemma no_budget_scenario_a :
  fst (run scenario_a "hi" 0)
  = Some (Ok (JObj [("success", JBool false);
                    ("error", JStr "Maximum tool calls (0) reached");
                    ("tool_calls_made", JNum 0);
                    ("partial_response", JStr "hi")]))
  /\ run_events (start scenario_a) (snd (run scenario_a "hi" 0))
     = [EvDiscover (Ok [])].
Proof.
  destruct (no_budget_no_model_call Script env self (start scenario_a)
              "hi" gpt 0 [] eq_refl ltac:(lia))
    as (Hout & Hevents & _).
  split; [exact Hout|exact Hevents].
Defined.

(** Scenario C ends with the fifth tool call. *)
Lemma run_ending_with_a_tool_call_scenario_c :
  fst (run scenario_c "weather?" 5)
  = Some (Ok (exhausted_result 5 5
                (JStr (dumps (JObj [("result", JStr "Sunny, 65F")]))))).
Proof.
  destruct (run_ending_with_a_tool_call Script env self (start scenario_c)
              "weather?" gpt 5
              (removelast (run_events (start scenario_c)
                             (snd (run scenario_c "weather?" 5))))
              (JStr "weather") (JObj [("location", JStr "SF")])
              (Ok (JObj [("result", JStr "Sunny, 65F")])))
    as (tool_result & Hresult & Hout).
  - vm_compute; reflexivity.
  - injection Hresult as <-. exact Hout.
Defined.


(** Arguments given as a mapping: one call counted, none made. *)
Lemma non_string_arguments_scenario :
  fst (run scenario_mapping_arguments "weather?" 5)
  = Some (Ok (JObj [("success", JBool false);
                    ("error",
                     JStr "the JSON object must be str, bytes or bytearray, not dict");
                    ("tool_calls_made", JNum 1)]))
  /\ count_tool_calls
       (run_events (start scenario_mapping_arguments)
          (snd (run scenario_mapping_arguments "weather?" 5))) = 0.
Proof.
  destruct (non_string_arguments_fail_the_run Script env self
              (start scenario_mapping_arguments) "weather?" gpt 5
              [EvDiscover (Ok [weather])] [user_message "weather?"]
              (Some [function_def weather]) mapping_arguments_reply []
              (JObj [("role", JStr "assistant"); ("content", JNull);
                     ("function_call",
                      JObj [("name", JStr "weather");
                            ("arguments",
                             JObj [("location", JStr "SF")])])])
              [("name", JStr "weather");
               ("arguments", JObj [("location", JStr "SF")])]
              (JObj [("location", JStr "SF")]))
    as (_ & Hout).
  - vm_compute; reflexivity.
  - reflexivity.
  - reflexivity.
  - reflexivity.
  - reflexivity.
  - discriminate.
  - split; [exact Hout|vm_compute; reflexivity].
Defined.

(** Scenario B: the tool gets the parsed location. *)
Lemma decoded_arguments_scenario_b :
  exists tool_result after',
    skipn 2 (run_events (start scenario_b)
               (snd (run scenario_b "weather?" 5)))
    = EvTool (JStr "weather") (JObj [("location", JStr "SF")])
             (Ok tool_result) :: after'.
Proof.
  apply (decoded_arguments_reach_the_tool Script env self (start scenario_b)
           "weather?" gpt 5
           [EvDiscover (Ok [weather])] [user_message "weather?"]
           (Some [function_def weather])
           (function_call_turn "weather" location_SF)
           (skipn 2 (run_events (start scenario_b)
                       (snd (run scenario_b "weather?" 5))))
           (JObj [("role", JStr "assistant"); ("content", JNull);
                  ("function_call",
                   JObj [("name", JStr "weather");
                         ("arguments", JStr location_SF)])])
           [("name", JStr "weather"); ("arguments", JStr location_SF)]
           location_SF (JObj [("location", JStr "SF")])).
  - vm_compute; reflexivity.
  - reflexivity.
  - reflexivity.
  - reflexivity.
  - reflexivity.
  - reflexivity.
Defined.


(** The backend answers the first request with status 500. *)
Lemma first_request_rejected_scenario :
  fst (run scenario_server_error "weather?" 5)
  = Some (Ok (JObj [("success", JBool false);
                    ("error", JStr "LiteLLM request failed: 500");
                    ("tool_calls_made", JNum 0)])).
Proof.
  destruct (first_request_rejected Script env self
              (start scenario_server_error) "weather?" gpt 5
              scenario_server_error [weather_tool] scenario_server_error
              server_error (mkScript (Ok [weather_tool]) [] []))
    as (Hout & _).
  - lia.
  - reflexivity.
  - reflexivity.
  - reflexivity.
  - discriminate.
  - exact Hout.
Defined.

(** Scenario A: the reply returned is the body of the response. *)
Lemma call_litellm_returns_the_body_scenario_a :
  exists response,
    status_code response = 200
    /\ response_json response = Ok (final_answer "Hello").
Proof.
  destruct (call_litellm_returns_the_body Script env self (start scenario_a)
              [user_message "hi"] gpt None (final_answer "Hello")
              (record (EvModel [user_message "hi"] None
                               (Ok (final_answer "Hello")))
                      (with_world (start scenario_a)
                                  (mkScript (Ok []) [] []))))
    as (response & w & _ & Hstatus & Hbody & _).
  - reflexivity.
  - now exists response.
Defined.

(** Scenario B leaves the weather tool in [self.mcp_tools]. *)
Lemma mcp_tools_after_scenario_b :
  self_mcp_tools (snd (run scenario_b "weather?" 5)) = [weather].
Proof.
  destruct (mcp_tools_after_the_run Script env self (start scenario_b)
              "weather?" gpt 5) as [Hfetched _].
  exact (Hfetched [weather] eq_refl).
Defined.

(** ** Sessions at the example terminal *)

(** The result of scenario B, as interactive mode shows it. *)
Lemma display_of_scenario_b :
  display_result Keyboard.console
    (success_result (JStr "It's sunny in SF.") 1 (JNum 42))
    (Keyboard.terminal [] scenario_b)
  = print_lines
      ["🤖 Response: It's sunny in SF.";
       nl ++ "🔧 Tools used: 1";
       nl ++ "📊 Tokens used: 42"]
      (Keyboard.terminal [] scenario_b).
Proof.
  destruct (display_of_a_result Keyboard.Session Keyboard.env
              Keyboard.console self
              (agent_state (Keyboard.terminal [] scenario_b))
              "weather?" gpt 5
              (success_result (JStr "It's sunny in SF.") 1 (JNum 42))
              (snd (process_request Keyboard.env self "weather?" gpt 5
                      (agent_state (Keyboard.terminal [] scenario_b)))))
    as (lines & Hshow & _ & Hsuccess).
  - vm_compute; reflexivity.
  - rewrite (Hsuccess _ _ _ eq_refl) in Hshow.
    exact (Hshow (Keyboard.terminal [] scenario_b)).
Defined.

(** [  Tools ] lists the tools and calls nothing else. *)
Lemma commands_make_no_model_call_tools :
  exists flow t' events,
    interactive_pass Keyboard.env Keyboard.console
      (Keyboard.terminal ["  Tools "] scenario_b) = (Some (Ok flow), t')
    /\ trace (agent_state t') = events
    /\ (List.length events <= 1)%nat
    /\ forallb is_discovery events = true.
Proof.
  exact (commands_make_no_model_call Keyboard.Session Keyboard.env
           Keyboard.console (Keyboard.terminal ["  Tools "] scenario_b)
           "  Tools " (Keyboard.mkSession [] scenario_b)
           eq_refl (or_introl eq_refl)).
Defined.

(** A request typed with a blank model name runs scenario B on
    [gpt-3.5-turbo]. *)
Lemma a_request_is_processed_scenario_b :
  exists result st' lines,
    process_request Keyboard.env (agent_config Keyboard.console)
      "weather?" "gpt-3.5-turbo" 5
      (agent_state (Keyboard.terminal [] scenario_b))
    = (Some (Ok result), st')
    /\ interactive_pass Keyboard.env Keyboard.console
         (Keyboard.terminal [" weather? "; ""] scenario_b)
       = (Some (Ok Continue),
          mkTerminal st'
            ([nl ++ "Processing with gpt-3.5-turbo..."; times "-" 40]
               ++ lines)).
Proof.
  exact (a_request_is_processed Keyboard.Session Keyboard.env
           Keyboard.console
           (Keyboard.terminal [" weather? "; ""] scenario_b)
           " weather? " (Keyboard.mkSession [""] scenario_b)
           "" (Keyboard.mkSession [] scenario_b)
           eq_refl eq_refl
           ltac:(vm_compute; discriminate) ltac:(vm_compute; discriminate)
           ltac:(vm_compute; discriminate) eq_refl).
Defined.

(** [models], then [quit]: the session ends framed. *)
Lemma session_output_models_then_quit :
  exists lines,
    stdout (snd (interactive_mode Keyboard.env Keyboard.console 3
                   (Keyboard.terminal ["models"; "quit"] scenario_a)))
    = ([(nl ++ times "=" 60)%string;
        "LiteLLM MCP Agent - Interactive Mode";
        times "=" 60;
        "Type 'quit', 'exit', or 'q' to exit";
        "Type 'tools' to list available MCP tools";
        "Type 'models' to see example supported models";
        times "-" 60]
         ++ lines
         ++ [(nl ++ "Goodbye! 👋")%string])%list.
Proof.
  destruct (session_output_is_framed Keyboard.Session Keyboard.env
              Keyboard.console 3
              (Keyboard.terminal ["models"; "quit"] scenario_a)
              (Ok tt)
              (snd (interactive_mode Keyboard.env Keyboard.console 3
                      (Keyboard.terminal ["models"; "quit"] scenario_a))))
    as (_ & lines & Hlines).
  - vm_compute; reflexivity.
  - exists lines. exact Hlines.
Defined.

(** [ Q ] as the first line ends the session. *)
Lemma quit_ends_the_session_at_once :
  exists t',
    interactive_mode Keyboard.env Keyboard.console 1
      (Keyboard.terminal [" Q "] scenario_a) = (Some (Ok tt), t')
    /\ stdout t'
       = [nl ++ times "=" 60;
          "LiteLLM MCP Agent - Interactive Mode";
          times "=" 60;
          "Type 'quit', 'exit', or 'q' to exit";
          "Type 'tools' to list available MCP tools";
          "Type 'models' to see example supported models";
          times "-" 60;
          nl ++ "Goodbye! 👋"]
    /\ trace (agent_state t') = []
    /\ world (agent_state t') = Keyboard.mkSession [] scenario_a.
Proof.
  exact (quit_ends_the_session Keyboard.Session Keyboard.env
           Keyboard.console 0 (Keyboard.terminal [" Q "] scenario_a)
           " Q " (Keyboard.mkSession [] scenario_a) eq_refl eq_refl).
Defined.

(** At the end of the standard input no number of passes is enough. *)
Lemma closed_stdin_never_ends :
  (forall prompt w,
      input Keyboard.closed_stdin prompt w = (Raise Keyboard.end_of_file, w))
  /\ forall fuel,
      fst (interactive_mode Keyboard.env Keyboard.closed_stdin fuel
             (Keyboard.terminal [] scenario_a)) = None.
Proof.
  split; [reflexivity|].
  exact (closed_input_never_ends Keyboard.Session Keyboard.env
           Keyboard.closed_stdin (Keyboard.terminal [] scenario_a)
           (fun prompt w =>
              ex_intro _ Keyboard.end_of_file (ex_intro _ w eq_refl))).
Defined.

(** [-p hi -m gpt-4 --mcp-url http://other/mcp] on scenario A. *)
Lemma main_single_request_scenario_a :
  exists result st',
    process_request Keyboard.env (agent_config Keyboard.console) "hi" "gpt-4"
      5 (agent_state (Keyboard.terminal [] scenario_a))
    = (Some (Ok result), st')
    /\ main Keyboard.env Keyboard.console 0
         (mkArgs (Some "hi") "gpt-4" "http://other/mcp")
         (Keyboard.terminal [] scenario_a)
       = (Some (Ok tt),
          mkTerminal st'
            ["Note: Custom MCP URL not yet supported in CLI. Using default.";
             dumps_indent Keyboard.console result]).
Proof.
  exact (main_single_request Keyboard.Session Keyboard.env Keyboard.console
           0 (mkArgs (Some "hi") "gpt-4" "http://other/mcp") "hi"
           (Keyboard.terminal [] scenario_a) eq_refl ltac:(discriminate)).
Defined.
